(** * The transform-application engine of albumentations/core

    A shallow embedding of [albumentations/core/transforms_interface.py],
    [numpy_core.py] and [lists_core.py]: the range helper [to_tuple], the
    activation and dispatch of [BasicTransform.__call__], the target router,
    the provenance tracker [keep_memory] and the list composition rules of
    [DualTransform].

    Python objects that carry identity (arrays, lists, instances) live in a
    store and are passed by reference; an exception leaves the store as it
    was when it was raised.  The value of [random.random()] is an argument
    of the call.  Numbers are integers, and probabilities are rationals.

    Each object holds its own history.  In Python an array and the views
    numpy derives from it share one list; that sharing is not
    represented, and what is stated of a history after a recording is
    stated of the object recorded on.

    A key of [**kwargs] or [**params] that is also the name of a formal
    parameter of the method it is passed to (['params'], ['img'], ...)
    makes Python refuse the call; the bundles and parameter sets of this
    file hold no such key. *)

From stdpp Require Import gmap strings list fin_maps.
From Stdlib Require Import ZArith QArith.

Local Open Scope string_scope.
Local Open Scope list_scope.
Local Open Scope Z_scope.

(** ** Exceptions *)

(** The built-in exceptions the engine raises.  [Unmodelled] marks a run
    that leaves the embedding (a reference outside the store, iteration
    over an array). *)
Inductive exn :=
  | KeyError (k : string)
  | AttributeError
  | IndexError
  | TypeError
  | ValueError
  | NotImplementedError
  | Unmodelled.

(** The failure conditions of the engine, as the exceptions that signal
    them. *)
Definition InvalidArgument : exn := ValueError.
Definition MissingRequiredArtifact : exn := KeyError "image".
Definition MissingDependencyArtifact (k : string) : exn := KeyError k.
Definition UnsupportedProvenanceTarget : exn := AttributeError.

(** Pure fallible code. *)
Inductive result (A : Type) :=
  | Return (a : A)
  | Throw (e : exn).
Arguments Return {A} a.
Arguments Throw {A} e.

#[global] Instance result_ret : MRet result := @Return.
#[global] Instance result_bind : MBind result :=
  fun A B k r => match r with
                 | Return a => k a
                 | Throw e => Throw e
                 end.

(** ** [to_tuple] *)

Module ToTuple.

(** The argument [param]: [None], a number, a list or tuple of numbers,
    or a value of any other type.  Numbers are integers. *)
Inductive param :=
  | PNone
  | PScalar (x : Z)
  | PSeq (xs : list Z)
  | POther.

(** What [to_tuple] hands back: [None] (for a [None] argument) or a
    tuple. *)
Inductive range :=
  | RNone
  | RTuple (xs : list Z).

Definition to_tuple (prm : param) (low bias : option Z) : result range :=
  match low, bias with
  | Some _, Some _ => Throw ValueError
  | _, _ =>
    match prm with
    | PNone => Return RNone
    | _ =>
      xs ← match prm with
           | PScalar x =>
             match low with
             | None => Return [- x; x]
             | Some lo => Return (if lo <? x then [lo; x] else [x; lo])
             end
           | PSeq xs => Return xs
           | _ => Throw ValueError
           end;
      match bias with
      | Some b => Return (RTuple (map (fun x => b + x) xs))
      | None => Return (RTuple xs)
      end
    end
  end.

End ToTuple.

Import ToTuple.

(** ** Values, objects and the store *)

Abbreviation loc := nat.

(** A Python value: [None], a number, a string, a reference to an object
    of the store, or an immutable sequence held by value (a tuple, or one
    row of a list of boxes or keypoints). *)
#[warnings="-register-all"] Inductive value :=
  | VNone
  | VInt (z : Z)
  | VStr (s : string)
  | VRef (l : loc)
  | VSeq (vs : list value).

(** A parameter set, [**params]. *)
Abbreviation params := (gmap string value).

(** One entry of a provenance history:
    [{'transform': self, 'params': params}]; the transform is recorded by
    its identity. *)
Record entry := Entry { e_transform : nat; e_params : params }.

(** The attribute [transforms] of an object: absent, bound to a value
    that has no [append] (such as [None]), or bound to a list of
    entries. *)
Inductive slot :=
  | NoSlot
  | SlotOther
  | Slot (hist : list entry).

(** The class of an object.  [instance] is any object that accepts a new
    attribute. *)
Inductive kind :=
  | ndarray
  | pylist
  | TransformsArray
  | TransformsList
  | instance.

(** What an object holds: a pixel grid with its [shape], or a sequence
    of values. *)
Inductive payload :=
  | Pixels (shape : list Z) (data : list Z)
  | Seq (elems : list value).

Record object := Object {
  okind : kind;
  opayload : payload;
  otransforms : slot
}.

Abbreviation store := (list object).

(** ** Effectful code: a store and exceptions *)

Inductive outcome (A : Type) :=
  | Ok (a : A) (h : store)
  | Raise (e : exn) (h : store).
Arguments Ok {A} a h.
Arguments Raise {A} e h.

Definition M (A : Type) : Type := store -> outcome A.

Definition ret {A} (a : A) : M A := fun h => Ok a h.

Definition raise {A} (e : exn) : M A := fun h => Raise e h.

Definition bind {A B} (m : M A) (k : A -> M B) : M B :=
  fun h => match m h with
           | Ok a h' => k a h'
           | Raise e h' => Raise e h'
           end.

#[global] Instance M_ret : MRet M := @ret.
#[global] Instance M_bind : MBind M := fun A B k m => bind m k.

Definition lift {A} (r : result A) : M A :=
  match r with
  | Return a => ret a
  | Throw e => raise e
  end.

(** [try: body except AttributeError: handler]. *)
Definition try_AttributeError {A} (body : M A) (handler : M A) : M A :=
  fun h => match body h with
           | Raise AttributeError h' => handler h'
           | o => o
           end.

Definition read (l : loc) : M object :=
  fun h => match h !! l with
           | Some o => Ok o h
           | None => Raise Unmodelled h
           end.

Definition write (l : loc) (o : object) : M unit :=
  fun h => Ok tt (<[l := o]> h).

Definition alloc (o : object) : M loc :=
  fun h => Ok (length h) (h ++ [o]).

(** The keyword arguments of one invocation, [**kwargs], in the order
    they were passed. *)
Abbreviation bundle := (list (string * value)).

Fixpoint kwargs_lookup (kwargs : bundle) (k : string) : option value :=
  match kwargs with
  | [] => None
  | (k', v) :: rest => if decide (k' = k) then Some v else kwargs_lookup rest k
  end.

(** [kwargs[k]] *)
Definition getitem (kwargs : bundle) (k : string) : M value :=
  match kwargs_lookup kwargs k with
  | Some v => ret v
  | None => raise (KeyError k)
  end.

(** [{k: kwargs[k] for k in ks}], the keys taken from left to right. *)
Fixpoint collect (kwargs : bundle) (ks : list string) (acc : params) : M params :=
  match ks with
  | [] => ret acc
  | k :: ks' => v ← getitem kwargs k; collect kwargs ks' (<[k := v]> acc)
  end.

(** [for x in v]: the elements of a sequence. *)
Definition iterate (v : value) : M (list value) :=
  match v with
  | VSeq vs => ret vs
  | VRef l =>
    o ← read l;
    match opayload o with
    | Seq elems => ret elems
    | Pixels _ _ => raise Unmodelled
    end
  | VStr _ => raise Unmodelled
  | VNone | VInt _ => raise TypeError
  end.

(** A list display or comprehension result: a fresh built-in list. *)
Definition new_list (vs : list value) : M value :=
  l ← alloc (Object pylist (Seq vs) NoSlot); ret (VRef l).

(** [v.shape[i]] *)
Definition shape_at (v : value) (i : nat) : M value :=
  match v with
  | VRef l =>
    o ← read l;
    match opayload o with
    | Pixels shape _ =>
      match shape !! i with
      | Some n => ret (VInt n)
      | None => raise IndexError
      end
    | Seq _ => raise AttributeError
    end
  | _ => raise AttributeError
  end.

(** [cv2.INTER_NEAREST] *)
Definition INTER_NEAREST : value := VInt 0.

(** [x < y] on rationals, as a boolean. *)
Definition Qltb (x y : Q) : bool :=
  (Qnum x * Zpos (Qden y) <? Qnum y * Zpos (Qden x))%Z.

(** ** Transforms *)

(** Which of the three classes of the file a transform derives from. *)
Inductive class :=
  | BasicTransformClass
  | DualTransformClass
  | ImageOnlyTransformClass.

(** A transform instance: its constructor arguments, its alias table and
    what its own class defines on top of the base classes: the attributes
    [interpolation] and [fill_value] when it has them, the result of
    [get_params] for the call at hand, the properties [targets_as_params]
    and [target_dependence], and the methods the base classes leave
    unimplemented or, as [NoOp] does with [apply_to_mask], redefined.  A
    [def_] field is [None] when the class leaves the base method in
    place.  [ident] stands for the identity of the instance. *)
Record transform := Transform {
  ident : nat;
  base : class;
  p : Q;
  always_apply : bool;
  _additional_targets : gmap string string;
  interpolation : option value;
  fill_value : option value;
  get_params : params;
  targets_as_params : list string;
  target_dependence : gmap string (list string);
  def_get_params_dependent_on_targets : option (params -> M params);
  def_apply : option (value -> params -> M value);
  def_apply_to_mask : option (value -> params -> M value);
  def_apply_to_bbox : option (list value -> params -> result (list value));
  def_apply_to_keypoint : option (list value -> params -> result (list value))
}.

(** An apply-variant, as the router hands it out. *)
Abbreviation target_function := (value -> params -> M value).

(** ** The provenance tracker *)

(** [getattr(quant, 'transforms')] *)
Definition getattr_transforms (quant : value) : M slot :=
  match quant with
  | VRef l =>
    o ← read l;
    match otransforms o with
    | NoSlot => raise AttributeError
    | s => ret s
    end
  | _ => raise AttributeError
  end.

(** Arrays and lists of the built-in classes refuse a new attribute, as
    do numbers, strings and tuples. *)
Definition accepts_attributes (k : kind) : bool :=
  match k with
  | TransformsArray | TransformsList | instance => true
  | ndarray | pylist => false
  end.

(** [quant.transforms = hist] *)
Definition setattr_transforms (quant : value) (hist : list entry) : M unit :=
  match quant with
  | VRef l =>
    o ← read l;
    if accepts_attributes (okind o)
    then write l (Object (okind o) (opayload o) (Slot hist))
    else raise AttributeError
  | _ => raise AttributeError
  end.

(** [isinstance(quant, np.ndarray)] *)
Definition isinstance_ndarray (quant : value) : M bool :=
  match quant with
  | VRef l =>
    o ← read l;
    ret (match okind o with ndarray | TransformsArray => true | _ => false end)
  | _ => ret false
  end.

(** [isinstance(quant, list)]; [TransformsList] derives from [UserList]. *)
Definition isinstance_list (quant : value) : M bool :=
  match quant with
  | VRef l =>
    o ← read l;
    ret (match okind o with pylist => true | _ => false end)
  | _ => ret false
  end.

(** [TransformsArray(input_array)]: a new view of the array, with an
    empty history of its own. *)
Definition TransformsArray_new (input_array : value) : M value :=
  match input_array with
  | VRef l =>
    o ← read l;
    l' ← alloc (Object TransformsArray (opayload o) (Slot []));
    ret (VRef l')
  | _ => raise Unmodelled
  end.

(** [TransformsList(_list)]: a new list with the same items and an empty
    history. *)
Definition TransformsList_new (_list : value) : M value :=
  match _list with
  | VRef l =>
    o ← read l;
    l' ← alloc (Object TransformsList (opayload o) (Slot []));
    ret (VRef l')
  | _ => raise Unmodelled
  end.

(** [quant.transforms.append(e)] *)
Definition transforms_append (quant : value) (e : entry) : M unit :=
  match quant with
  | VRef l =>
    o ← read l;
    match otransforms o with
    | Slot hist => write l (Object (okind o) (opayload o) (Slot (hist ++ [e])))
    | _ => raise AttributeError
    end
  | _ => raise AttributeError
  end.

(** [BasicTransform.keep_memory].  The name [quant] is local: once it is
    rebound to a wrapper, the entry goes to the wrapper, and the method
    returns nothing. *)
Definition keep_memory (self : transform) (quant : value) (ps : params) : M unit :=
  quant' ←
    try_AttributeError (getattr_transforms quant;; ret quant)
      (try_AttributeError (setattr_transforms quant [];; ret quant)
         (nd ← isinstance_ndarray quant;
          if (nd : bool) then TransformsArray_new quant
          else
            li ← isinstance_list quant;
            if (li : bool) then TransformsList_new quant
            else raise AttributeError));
  transforms_append quant' (Entry (ident self) ps).

(** ** The leaf operations and the composition rules *)

(** [BasicTransform.apply] unless the class defines its own. *)
Definition apply (self : transform) (img : value) (ps : params) : M value :=
  match def_apply self with
  | Some f => f img ps
  | None => raise NotImplementedError
  end.

Definition _apply (self : transform) (quant : value) (ps : params) : M value :=
  keep_memory self quant ps;; apply self quant ps.

(** [DualTransform.apply_to_bbox] unless the class defines its own.  The
    primitive returns a list of fields: [apply_to_bboxes] adds a list to
    what it returns. *)
Definition apply_to_bbox (self : transform) (bbox : list value) (ps : params)
  : result (list value) :=
  match def_apply_to_bbox self with
  | Some f => f bbox ps
  | None => Throw NotImplementedError
  end.

Definition apply_to_keypoint (self : transform) (keypoint : list value) (ps : params)
  : result (list value) :=
  match def_apply_to_keypoint self with
  | Some f => f keypoint ps
  | None => Throw NotImplementedError
  end.

(** [list(s)] of a sequence: a list of the same items. *)
Definition py_list (s : list value) : list value := s.

(** [DualTransform.apply_to_bboxes], on the boxes as rows of fields. *)
Definition apply_to_bboxes (self : transform) (bboxes : list (list value)) (ps : params)
  : result (list (list value)) :=
  let bboxes := map py_list bboxes in
  mapM (fun bbox => r ← apply_to_bbox self (take 4 bbox) ps; mret (r ++ drop 4 bbox))
       bboxes.

(** [DualTransform.apply_to_keypoints] *)
Definition apply_to_keypoints (self : transform) (keypoints : list (list value)) (ps : params)
  : result (list (list value)) :=
  let keypoints := map py_list keypoints in
  mapM (fun keypoint =>
          r ← apply_to_keypoint self (take 4 keypoint) ps; mret (r ++ drop 4 keypoint))
       keypoints.

(** The dictionary comprehension of [apply_to_mask]:
    [{k: cv2.INTER_NEAREST if k == 'interpolation' else v for k, v in params.items()}] *)
Definition nearest_params (ps : params) : params :=
  map_imap (fun k v => Some (if decide (k = "interpolation") then INTER_NEAREST else v)) ps.

(** [DualTransform.apply_to_mask] as the base class defines it. *)
Definition DualTransform_apply_to_mask (self : transform) (img : value) (ps : params)
  : M value :=
  apply self img (nearest_params ps).

(** [self.apply_to_mask]: the class's own definition when it has one. *)
Definition apply_to_mask (self : transform) (img : value) (ps : params) : M value :=
  match def_apply_to_mask self with
  | Some f => f img ps
  | None => DualTransform_apply_to_mask self img ps
  end.

(** [DualTransform.apply_to_masks], on the items of the list. *)
Definition apply_to_masks (self : transform) (masks : list value) (ps : params)
  : M (list value) :=
  mapM (fun mask => apply_to_mask self mask ps) masks.

(** Passing a list artifact to a method that works on rows of fields,
    and handing its result back as a new list. *)
Definition on_rows (f : list (list value) -> params -> result (list (list value)))
  : target_function :=
  fun v ps =>
    items ← iterate v;
    rows ← mapM iterate items;
    out ← lift (f rows ps);
    new_list (VSeq <$> out).

(** The same for a method that works on the items of a list. *)
Definition on_items (f : list value -> params -> M (list value)) : target_function :=
  fun v ps => items ← iterate v; out ← f items ps; new_list out.

Definition _apply_to_bboxes (self : transform) (bboxes : value) (ps : params) : M value :=
  keep_memory self bboxes ps;; on_rows (apply_to_bboxes self) bboxes ps.

Definition _apply_to_keypoints (self : transform) (keypoints : value) (ps : params)
  : M value :=
  keep_memory self keypoints ps;; on_rows (apply_to_keypoints self) keypoints ps.

Definition _apply_to_mask (self : transform) (mask : value) (ps : params) : M value :=
  keep_memory self mask ps;; apply_to_mask self mask ps.

(** ** The target router *)

(** The property [targets] of the three classes. *)
Definition targets (self : transform) : result (gmap string target_function) :=
  match base self with
  | BasicTransformClass => Throw NotImplementedError
  | DualTransformClass =>
    Return (<["image" := _apply self]>
           (<["mask" := _apply_to_mask self]>
           (<["masks" := on_items (apply_to_masks self)]>
           (<["bboxes" := _apply_to_bboxes self]>
           (<["keypoints" := _apply_to_keypoints self]> ∅)))))
  | ImageOnlyTransformClass =>
    Return (<["image" := apply self]> ∅)
  end.

(** The canonical name a key stands for. *)
Definition transform_key (self : transform) (key : string) : string :=
  match _additional_targets self !! key with
  | Some canonical => canonical
  | None => key
  end.

(** [lambda x, **p: x] *)
Definition identity_function : target_function := fun x _ => ret x.

Definition _get_target_function (self : transform) (key : string) : M target_function :=
  tbl ← lift (targets self);
  ret (default identity_function (tbl !! transform_key self key)).

Definition add_targets (self : transform) (additional_targets : gmap string string)
  : transform :=
  Transform (ident self) (base self) (p self) (always_apply self) additional_targets
    (interpolation self) (fill_value self) (get_params self) (targets_as_params self)
    (target_dependence self) (def_get_params_dependent_on_targets self)
    (def_apply self) (def_apply_to_mask self) (def_apply_to_bbox self)
    (def_apply_to_keypoint self).

(** ** Activation and dispatch *)

Definition update_params (self : transform) (ps : params) (kwargs : bundle) : M params :=
  let ps := match interpolation self with
            | Some v => <["interpolation" := v]> ps
            | None => ps
            end in
  let ps := match fill_value self with
            | Some v => <["fill_value" := v]> ps
            | None => ps
            end in
  image ← getitem kwargs "image";
  cols ← shape_at image 1;
  image ← getitem kwargs "image";
  rows ← shape_at image 0;
  ret (<["rows" := rows]> (<["cols" := cols]> ps)).

Definition get_params_dependent_on_targets (self : transform) (tp : params) : M params :=
  match def_get_params_dependent_on_targets self with
  | Some f => f tp
  | None => raise NotImplementedError
  end.

(** One turn of the loop over [kwargs.items()]: the entry written to
    [res]. *)
Definition transform_item (self : transform) (kwargs : bundle) (ps : params)
    (item : string * value) : M (string * value) :=
  let '(key, arg) := item in
  match arg with
  | VNone => ret (key, VNone)
  | _ =>
    target_function ← _get_target_function self key;
    target_dependencies ←
      collect kwargs (default [] (target_dependence self !! key)) ∅;
    r ← target_function arg (target_dependencies ∪ ps);
    ret (key, r)
  end.

(** Whether the call is active, [draw] being the value of
    [random.random()]. *)
Definition active (self : transform) (draw : Q) (force_apply : bool) : bool :=
  Qltb draw (p self) || always_apply self || force_apply.

(** [BasicTransform.__call__] *)
Definition __call__ (self : transform) (draw : Q) (force_apply : bool) (kwargs : bundle)
  : M bundle :=
  if active self draw force_apply then
    ps ← update_params self (get_params self) kwargs;
    ps ← match targets_as_params self with
         | [] => ret ps
         | ks =>
           targets_as_params ← collect kwargs ks ∅;
           params_dependent_on_targets ←
             get_params_dependent_on_targets self targets_as_params;
           ret (params_dependent_on_targets ∪ ps)
         end;
    mapM (transform_item self kwargs ps) kwargs
  else ret kwargs.

(** ** [NoOp] *)

Definition NoOp (id : nat) (always_apply : bool) (p : Q) : transform :=
  {| ident := id;
     base := DualTransformClass;
     p := p;
     always_apply := always_apply;
     _additional_targets := ∅;
     interpolation := None;
     fill_value := None;
     get_params := ∅;
     targets_as_params := [];
     target_dependence := ∅;
     def_get_params_dependent_on_targets := None;
     def_apply := Some (fun img _ => ret img);
     def_apply_to_mask := Some (fun img _ => ret img);
     def_apply_to_bbox := Some (fun bbox _ => Return bbox);
     def_apply_to_keypoint := Some (fun keypoint _ => Return keypoint) |}.

(** The history an object of the store carries, if it has a slot. *)
Definition history (h : store) (v : value) : option (list entry) :=
  match v with
  | VRef l =>
    match h !! l with
    | Some (Object _ _ (Slot hist)) => Some hist
    | _ => None
    end
  | _ => None
  end.

Definition array (shape : list Z) (data : list Z) : object :=
  Object ndarray (Pixels shape data) NoSlot.

(** A class derived from [DualTransform] that defines [apply] and nothing
    else. *)
Definition DualTransform_with (id : nat) (always_apply : bool) (p : Q)
    (interpolation : option value) (f : value -> params -> M value) : transform :=
  {| ident := id;
     base := DualTransformClass;
     p := p;
     always_apply := always_apply;
     _additional_targets := ∅;
     interpolation := interpolation;
     fill_value := None;
     get_params := ∅;
     targets_as_params := [];
     target_dependence := ∅;
     def_get_params_dependent_on_targets := None;
     def_apply := Some f;
     def_apply_to_mask := None;
     def_apply_to_bbox := None;
     def_apply_to_keypoint := None |}.

(** A class derived from [ImageOnlyTransform] that defines [apply] and
    nothing else. *)
Definition ImageOnlyTransform_with (id : nat) (always_apply : bool) (p : Q)
    (f : value -> params -> M value) : transform :=
  {| ident := id;
     base := ImageOnlyTransformClass;
     p := p;
     always_apply := always_apply;
     _additional_targets := ∅;
     interpolation := None;
     fill_value := None;
     get_params := ∅;
     targets_as_params := [];
     target_dependence := ∅;
     def_get_params_dependent_on_targets := None;
     def_apply := Some f;
     def_apply_to_mask := None;
     def_apply_to_bbox := None;
     def_apply_to_keypoint := None |}.

(** Calling a transform again and again, each call on the bundle the
    previous one returned, with one random draw per call. *)
Fixpoint repeat_call (self : transform) (draws : list Q) (kwargs : bundle) : M bundle :=
  match draws with
  | [] => ret kwargs
  | draw :: rest => out ← __call__ self draw false kwargs; repeat_call self rest out
  end.

(** The run of a list comprehension [[f(x) for x in xs]] that returns:
    the elements are taken in order, each call starting from the store
    the previous one left. *)
Inductive threaded {A B} (f : A -> M B) : list A -> store -> list B -> store -> Prop :=
  | threaded_nil h : threaded f [] h [] h
  | threaded_cons x xs h y h1 ys h2 :
      f x h = Ok y h1 ->
      threaded f xs h1 ys h2 ->
      threaded f (x :: xs) h (y :: ys) h2.

(** A [TransformsArray] and a [TransformsList] with a given history. *)
Definition tarray (shape : list Z) (data : list Z) (hist : list entry) : object :=
  Object TransformsArray (Pixels shape data) (Slot hist).

Definition tlist (elems : list value) (hist : list entry) : object :=
  Object TransformsList (Seq elems) (Slot hist).

(** The parameter set of a call whose transform declares no parameter
    of its own. *)
Definition geometry (rows cols : Z) : params :=
  <["rows" := VInt rows]> (<["cols" := VInt cols]> ∅).


(** A class derived from [DualTransform] whose [apply] returns the image
    and which declares [targets_as_params], [target_dependence] and,
    when [f] is given, [get_params_dependent_on_targets]. *)
Definition DualTransform_with_targets (id : nat) (names : list string)
    (dependence : gmap string (list string)) (f : option (params -> M params))
  : transform :=
  {| ident := id;
     base := DualTransformClass;
     p := 1;
     always_apply := false;
     _additional_targets := ∅;
     interpolation := None;
     fill_value := None;
     get_params := ∅;
     targets_as_params := names;
     target_dependence := dependence;
     def_get_params_dependent_on_targets := f;
     def_apply := Some (fun img _ => ret img);
     def_apply_to_mask := None;
     def_apply_to_bbox := None;
     def_apply_to_keypoint := None |}.

(** A class derived from [BasicTransform] itself, which defines [apply]
    but not [targets]. *)
Definition BasicTransform_with (id : nat) (always_apply : bool) (p : Q)
    (f : value -> params -> M value) : transform :=
  {| ident := id;
     base := BasicTransformClass;
     p := p;
     always_apply := always_apply;
     _additional_targets := ∅;
     interpolation := None;
     fill_value := None;
     get_params := ∅;
     targets_as_params := [];
     target_dependence := ∅;
     def_get_params_dependent_on_targets := None;
     def_apply := Some f;
     def_apply_to_mask := None;
     def_apply_to_bbox := None;
     def_apply_to_keypoint := None |}.

(** The store an outcome leaves behind. *)
Definition final_store {A} (o : outcome A) : store :=
  match o with
  | Ok _ h => h
  | Raise _ h => h
  end.

(** [h'] comes after [h] without loss: every object of [h] is still
    there, of the same class and with the same content, and a history it
    had in [h] is the beginning of the history it has in [h']. *)
Definition keeps_histories (h h' : store) : Prop :=
  forall l o,
    h !! l = Some o ->
    exists o',
      h' !! l = Some o' /\
      okind o' = okind o /\
      opayload o' = opayload o /\
      forall hist, otransforms o = Slot hist ->
                   exists more, otransforms o' = Slot (hist ++ more).

(** A computation that loses no history, from whatever store it
    starts and whether it returns or raises. *)
Definition safe {A} (m : M A) : Prop :=
  forall h, keeps_histories h (final_store (m h)).

(** A leaf operation that loses no history, whatever it is called
    with. *)
Definition careful {A B} (f : A -> params -> M B) : Prop :=
  forall a ps, safe (f a ps).

(** ** [TransformsArray], in full *)

(** [TransformsArray.__array_finalize__(self, obj)]: the attribute
    [transforms] of the new array, given the one it had ([NoSlot] for an
    array just made) and the array [obj] it was made from.  With
    [getattr(obj, 'transforms', None)] an array without the attribute
    gives [None]. *)
Definition __array_finalize__ (self_transforms : slot) (obj : option object) : slot :=
  match obj with
  | None => self_transforms
  | Some o =>
    match otransforms o with
    | NoSlot => SlotOther
    | s => s
    end
  end.

(** [np.asarray(v)]: an array of the base class on the same data, which
    is the array itself when it is of the base class already. *)
Definition np_asarray (v : value) : M value :=
  match v with
  | VRef l =>
    o ← read l;
    match okind o, opayload o with
    | ndarray, Pixels _ _ => ret v
    | TransformsArray, Pixels _ _ =>
      l' ← alloc (Object ndarray (opayload o) NoSlot); ret (VRef l')
    | _, _ => raise Unmodelled
    end
  | _ => raise Unmodelled
  end.

(** [v.view(TransformsArray)]: numpy makes the new array and has it
    finalized from the array viewed. *)
Definition view_TransformsArray (v : value) : M value :=
  match v with
  | VRef l =>
    o ← read l;
    match opayload o with
    | Pixels _ _ =>
      l' ← alloc (Object TransformsArray (opayload o) (__array_finalize__ NoSlot (Some o)));
      ret (VRef l')
    | Seq _ => raise Unmodelled
    end
  | _ => raise Unmodelled
  end.

(** [TransformsArray.__new__(cls, input_array, transforms)] *)
Definition TransformsArray___new__ (input_array : value) (transforms : option (list entry))
  : M value :=
  base_array ← np_asarray input_array;
  obj ← view_TransformsArray base_array;
  let transforms := match transforms with
                    | None => []
                    | Some given => given
                    end in
  setattr_transforms obj transforms;;
  ret obj.

(** ** Introspection *)

(** The value of an instance attribute. *)
Inductive attribute :=
  | ABool (b : bool)
  | ANumber (q : Q)
  | AString (s : string)
  | AValue (v : value)
  | ATable (m : gmap string string).

(** A transform together with what introspection looks at: the module
    and the name of its class, whether the class defines
    [get_transform_init_args_names] and with which names, and the
    attributes its [__init__] sets besides those of [BasicTransform]. *)
Record introspected := Introspected {
  the_transform : transform;
  class_module : string;
  class_name : string;
  def_get_transform_init_args_names : option (list string);
  own_attributes : gmap string attribute
}.

(** The attributes of the instance: those [BasicTransform.__init__]
    sets, [interpolation] and [fill_value] when the transform has them,
    and the others its class sets. *)
Definition instance_attributes (s : introspected) : gmap string attribute :=
  let self := the_transform s in
  <["p" := ANumber (p self)]>
  (<["always_apply" := ABool (always_apply self)]>
  (<["_additional_targets" := ATable (_additional_targets self)]>
  (match interpolation self with
   | Some v => <["interpolation" := AValue v]>
   | None => delete "interpolation"
   end
  (match fill_value self with
   | Some v => <["fill_value" := AValue v]>
   | None => delete "fill_value"
   end (own_attributes s))))).

(** [getattr(self, k)] for the name of an instance attribute; any other
    name (a method, a property, a name that is not defined) is outside
    the embedding. *)
Definition getattr (s : introspected) (k : string) : result attribute :=
  match instance_attributes s !! k with
  | Some a => Return a
  | None => Throw Unmodelled
  end.

(** [cls.get_class_fullname()] *)
Definition get_class_fullname (s : introspected) : string :=
  class_module s +:+ "." +:+ class_name s.

Definition get_transform_init_args_names (s : introspected) : result (list string) :=
  match def_get_transform_init_args_names s with
  | Some names => Return names
  | None => Throw NotImplementedError
  end.

Definition get_base_init_args (s : introspected) : gmap string attribute :=
  <["p" := ANumber (p (the_transform s))]>
  (<["always_apply" := ABool (always_apply (the_transform s))]> ∅).

(** [{k: getattr(self, k) for k in names}] *)
Fixpoint getattrs (s : introspected) (names : list string) (acc : gmap string attribute)
  : result (gmap string attribute) :=
  match names with
  | [] => Return acc
  | k :: rest => a ← getattr s k; getattrs s rest (<[k := a]> acc)
  end.

Definition get_transform_init_args (s : introspected) : result (gmap string attribute) :=
  names ← get_transform_init_args_names s; getattrs s names ∅.

(** [BasicTransform._to_dict]; [state.update(d)] lets [d] win. *)
Definition _to_dict (s : introspected) : result (gmap string attribute) :=
  let state := {["__class_fullname__" := AString (get_class_fullname s)]} in
  let state := get_base_init_args s ∪ state in
  init_args ← get_transform_init_args s;
  Return (init_args ∪ state).

(** * Properties *)

(** Opening the sequencing of effectful and of fallible code. *)
Ltac step_M := unfold mbind, M_bind, bind.
Ltac step_result := unfold mbind, result_bind.

(** ** The range helper *)

(** C9: [to_tuple(5)] is [(-5, 5)], [to_tuple(5, low=2)] is [(2, 5)],
    [to_tuple((1, 2))] is [(1, 2)], [to_tuple(5, bias=1)] is [(-4, 6)],
    and with both [low] and [bias] given the call raises [ValueError],
    the InvalidArgument condition, whatever [param] is. *)
Theorem to_tuple_cases :
  to_tuple (PScalar 5) None None = Return (RTuple [-5; 5]) /\
  to_tuple (PScalar 5) (Some 2) None = Return (RTuple [2; 5]) /\
  to_tuple (PSeq [1; 2]) None None = Return (RTuple [1; 2]) /\
  to_tuple (PScalar 5) None (Some 1) = Return (RTuple [-4; 6]) /\
  forall prm low bias, to_tuple prm (Some low) (Some bias) = Throw InvalidArgument.
Proof.
  repeat split; reflexivity.
Qed.

(** ** Activation *)

Lemma Qltb_lt (x y : Q) : Qltb x y = true <-> (x < y)%Q.
Proof. unfold Qltb, Qlt. apply Z.ltb_lt. Qed.

Lemma Qltb_zero (draw prob : Q) : (prob == 0)%Q -> (0 <= draw)%Q -> Qltb draw prob = false.
Proof.
  intros Hp Hd. destruct (Qltb draw prob) eqn:E; [|reflexivity].
  apply Qltb_lt in E. rewrite Hp in E.
  exfalso. exact (Qlt_not_le _ _ E Hd).
Qed.

Lemma inactive_call (self : transform) (draw : Q) (kwargs : bundle) (h : store) :
  active self draw false = false -> __call__ self draw false kwargs h = Ok kwargs h.
Proof. intros E. unfold __call__. rewrite E. reflexivity. Qed.

(** C3: a transform built with [p = 0] and [always_apply = False], called
    without [force_apply] any number of times, hands back the bundle it
    was given, the very same values under the same keys, and leaves the
    store untouched, so that no history gains an entry. *)
Theorem p_zero_is_identity (self : transform) (draws : list Q) (kwargs : bundle) (h : store) :
  (p self == 0)%Q ->
  always_apply self = false ->
  Forall (fun draw => (0 <= draw)%Q /\ (draw < 1)%Q) draws ->
  repeat_call self draws kwargs h = Ok kwargs h.
Proof.
  intros Hp Ha Hd. induction Hd as [|draw rest [H0 _] _ IH]; [reflexivity|].
  cbn [repeat_call]. step_M.
  rewrite inactive_call; [exact IH|].
  unfold active. rewrite (Qltb_zero _ _ Hp H0), Ha. reflexivity.
Qed.

Lemma p_zero_is_identity_witness :
  repeat_call (NoOp 1 false 0) [0; 0.25; 0.99]%Q
    [("image", VRef 0%nat); ("mask", VNone)] [array [1; 1] [0]]
  = Ok [("image", VRef 0%nat); ("mask", VNone)] [array [1; 1] [0]].
Proof.
  apply (p_zero_is_identity (NoOp 1 false 0)).
  - reflexivity.
  - reflexivity.
  - repeat constructor; discriminate.
Defined.

(** C6: an active call on a bundle without the key ['image'] raises
    [KeyError('image')], the MissingRequiredArtifact condition, before
    any artifact is looked at: the store is the one the call started
    from. *)
Theorem missing_image_fails (self : transform) (draw : Q) (force_apply : bool)
    (kwargs : bundle) (h : store) :
  active self draw force_apply = true ->
  kwargs_lookup kwargs "image" = None ->
  __call__ self draw force_apply kwargs h = Raise MissingRequiredArtifact h.
Proof.
  intros Ha Hk. unfold __call__. rewrite Ha.
  unfold update_params, getitem. rewrite Hk. reflexivity.
Qed.

Lemma missing_image_fails_witness :
  __call__ (NoOp 1 false 0.5) 0.7 true
    [("bboxes", VRef 0%nat)] [Object pylist (Seq [VSeq [VInt 0; VInt 0; VInt 1; VInt 1]]) NoSlot]
  = Raise MissingRequiredArtifact
      [Object pylist (Seq [VSeq [VInt 0; VInt 0; VInt 1; VInt 1]]) NoSlot].
Proof.
  apply missing_image_fails; reflexivity.
Defined.

(** ** List comprehensions *)

Lemma bind_Ok {A B} (m : M A) (k : A -> M B) (h : store) (b : B) (h' : store) :
  (m ≫= k) h = Ok b h' <-> exists a h1, m h = Ok a h1 /\ k a h1 = Ok b h'.
Proof.
  step_M. split.
  - destruct (m h) as [a h1|e h1]; [eauto|discriminate].
  - intros (a & h1 & -> & Hk). exact Hk.
Qed.

Lemma mapM_threaded {A B} (f : A -> M B) (xs : list A) (h : store) (ys : list B) (h' : store) :
  mapM f xs h = Ok ys h' <-> threaded f xs h ys h'.
Proof.
  revert h ys. induction xs as [|x xs IH]; intros h ys.
  - split.
    + intros [= <- <-]. constructor.
    + inversion 1. reflexivity.
  - change (mapM f (x :: xs)) with (y ← f x; k ← mapM f xs; mret (y :: k)).
    rewrite bind_Ok. split.
    + intros (y & h1 & Hy & Hrest). apply bind_Ok in Hrest as (k & h2 & Hk & Hret).
      injection Hret as <- <-. econstructor; [exact Hy|]. apply IH, Hk.
    + inversion 1; subst. eexists _, _. split; [eassumption|].
      apply bind_Ok. eexists _, _. split; [apply IH; eassumption|reflexivity].
Qed.


Lemma threaded_lookup {A B} (f : A -> M B) xs h ys h' (i : nat) (x : A) :
  threaded f xs h ys h' ->
  xs !! i = Some x ->
  exists hi y hi', f x hi = Ok y hi' /\ ys !! i = Some y.
Proof.
  intros T. revert i. induction T as [|x0 xs h y h1 ys h2 Hf T IH]; intros i Hi.
  - discriminate.
  - destruct i as [|i]; simpl in Hi.
    + injection Hi as ->. eauto.
    + apply IH in Hi as (hi & y' & hi' & ? & ?). eauto.
Qed.

(** ** The router *)

Lemma targets_add_targets (self : transform) (m : gmap string string) :
  targets (add_targets self m) = targets self.
Proof. unfold targets. simpl. destruct (base self); reflexivity. Qed.


Lemma get_target_function_Ok (self : transform) (key : string) (tbl : gmap string target_function)
    (h : store) :
  targets self = Return tbl ->
  _get_target_function self key h
  = Ok (default identity_function (tbl !! transform_key self key)) h.
Proof. intros E. unfold _get_target_function. rewrite E. reflexivity. Qed.



Lemma getitem_store (kwargs : bundle) (k : string) (h : store) :
  getitem kwargs k h
  = match kwargs_lookup kwargs k with
    | Some v => Ok v h
    | None => Raise (KeyError k) h
    end.
Proof. unfold getitem. destruct (kwargs_lookup kwargs k); reflexivity. Qed.

(** Gathering dependencies reads the bundle only. *)
Lemma collect_store (kwargs : bundle) (ks : list string) (acc : params) (h : store) :
  (exists d, collect kwargs ks acc h = Ok d h) \/
  (exists k, collect kwargs ks acc h = Raise (KeyError k) h).
Proof.
  revert acc. induction ks as [|k ks IH]; intros acc.
  - left. eexists. reflexivity.
  - cbn [collect]. step_M. rewrite getitem_store.
    destruct (kwargs_lookup kwargs k); [apply IH|].
    right. eexists. reflexivity.
Qed.

Lemma collect_present (kwargs : bundle) (ks : list string) (acc : params) (h : store) :
  Forall (fun k => is_Some (kwargs_lookup kwargs k)) ks ->
  exists d, collect kwargs ks acc h = Ok d h.
Proof.
  intros F. revert acc. induction F as [|k ks [v Hv] _ IH]; intros acc.
  - eexists. reflexivity.
  - cbn [collect]. step_M. rewrite getitem_store, Hv. apply IH.
Qed.

Lemma value_is_none (v : value) : v = VNone \/ v <> VNone.
Proof. destruct v; [left; reflexivity|right; discriminate..]. Qed.

(** What one turn of the loop does with an artifact that is not [None]. *)
Lemma transform_item_present (self : transform) (kwargs : bundle) (ps : params)
    (key : string) (arg : value) :
  arg <> VNone ->
  transform_item self kwargs ps (key, arg) =
  (target_function ← _get_target_function self key;
   target_dependencies ← collect kwargs (default [] (target_dependence self !! key)) ∅;
   r ← target_function arg (target_dependencies ∪ ps);
   ret (key, r)).
Proof. intros Hn. destruct arg; [contradiction|reflexivity..]. Qed.

(** The entries of the bundle an active call returns come from the turns
    of its loop. *)
Lemma call_active_lookup (self : transform) (draw : Q) (force_apply : bool)
    (kwargs : bundle) (h : store) (res : bundle) (h' : store) (i : nat)
    (item : string * value) :
  active self draw force_apply = true ->
  __call__ self draw force_apply kwargs h = Ok res h' ->
  kwargs !! i = Some item ->
  exists ps hi out hi',
    transform_item self kwargs ps item hi = Ok out hi' /\ res !! i = Some out.
Proof.
  intros Ha Hcall Hi. unfold __call__ in Hcall. rewrite Ha in Hcall.
  apply bind_Ok in Hcall as (ps0 & h1 & _ & Hcall).
  apply bind_Ok in Hcall as (ps & h2 & _ & Hcall).
  apply mapM_threaded in Hcall.
  destruct (threaded_lookup _ _ _ _ _ _ _ Hcall Hi) as (hi & out & hi' & ? & ?).
  eauto 10.
Qed.

(** C7: with the alias [{'img2': 'image'}] registered, the router gives
    for the key ['img2'] the very function that [targets] binds to
    ['image'], the one it gives for ['image'] itself: [_apply] for a
    [DualTransform], [apply] for an [ImageOnlyTransform].  In an active
    call that returns, the value under ['img2'] of the result is what
    that function returned when called on the artifact passed as [img2],
    with the dependencies declared for ['img2'] laid over the shared
    parameters. *)
Theorem alias_routes_own_value (self : transform) (draw : Q) (force_apply : bool)
    (kwargs : bundle) (h : store) (res : bundle) (h' : store) (i : nat) (arg : value) :
  active (add_targets self {["img2" := "image"]}) draw force_apply = true ->
  kwargs !! i = Some ("img2", arg) ->
  arg <> VNone ->
  __call__ (add_targets self {["img2" := "image"]}) draw force_apply kwargs h = Ok res h' ->
  exists tbl image_variant,
    targets (add_targets self {["img2" := "image"]}) = Return tbl /\
    tbl !! "image" = Some image_variant /\
    (forall h0, _get_target_function (add_targets self {["img2" := "image"]}) "img2" h0
                = Ok image_variant h0) /\
    (forall h0, _get_target_function (add_targets self {["img2" := "image"]}) "image" h0
                = Ok image_variant h0) /\
    (base self = DualTransformClass ->
     image_variant = _apply (add_targets self {["img2" := "image"]})) /\
    (base self = ImageOnlyTransformClass ->
     image_variant = apply (add_targets self {["img2" := "image"]})) /\
    exists shared deps hi r hi',
      collect kwargs (default [] (target_dependence self !! "img2")) ∅ hi = Ok deps hi /\
      image_variant arg (deps ∪ shared) hi = Ok r hi' /\
      res !! i = Some ("img2", r).
Proof.
  intros Ha Hi Hn Hcall.
  destruct (call_active_lookup _ _ _ _ _ _ _ _ _ Ha Hcall Hi)
    as (ps & hi & out & hi' & Hitem & Hres).
  rewrite transform_item_present in Hitem by exact Hn.
  apply bind_Ok in Hitem as (variant & h1 & Hvar & Hitem).
  destruct (targets (add_targets self {["img2" := "image"]})) as [tbl|e] eqn:Ht.
  2:{ unfold _get_target_function in Hvar. rewrite Ht in Hvar. discriminate. }
  assert (Himg : exists image_variant,
             tbl !! "image" = Some image_variant /\
             (base self = DualTransformClass ->
              image_variant = _apply (add_targets self {["img2" := "image"]})) /\
             (base self = ImageOnlyTransformClass ->
              image_variant = apply (add_targets self {["img2" := "image"]}))).
  { unfold targets in Ht. simpl in Ht.
    destruct (base self); [discriminate| |]; injection Ht as <-;
      (eexists; split; [apply lookup_insert_eq|]); split; intros E;
      first [reflexivity|discriminate]. }
  destruct Himg as (image_variant & Himg & HD & HI).
  assert (R2 : forall h0, _get_target_function (add_targets self {["img2" := "image"]})
                            "img2" h0 = Ok image_variant h0).
  { intros h0. rewrite (get_target_function_Ok _ _ _ _ Ht). unfold transform_key. simpl.
    rewrite lookup_singleton_eq, Himg. reflexivity. }
  assert (R1 : forall h0, _get_target_function (add_targets self {["img2" := "image"]})
                            "image" h0 = Ok image_variant h0).
  { intros h0. rewrite (get_target_function_Ok _ _ _ _ Ht). unfold transform_key. simpl.
    rewrite lookup_singleton_ne by discriminate. rewrite Himg. reflexivity. }
  exists tbl, image_variant. split; [reflexivity|]. repeat (split; [assumption|]).
  rewrite R2 in Hvar. injection Hvar as <- <-.
  apply bind_Ok in Hitem as (deps & h2 & Hdeps & Hitem).
  apply bind_Ok in Hitem as (r & h3 & Hrun & Hret).
  injection Hret as <- <-.
  assert (h2 = hi) as ->.
  { destruct (collect_store kwargs
                (default [] (target_dependence
                               (add_targets self {["img2" := "image"]}) !! "img2")) ∅ hi)
      as [[d Hd]|[k Hk]]; rewrite Hdeps in *; congruence. }
  exists ps, deps, hi, r, h3. auto.
Qed.

Lemma alias_routes_own_value_witness :
  exists tbl image_variant,
    targets (add_targets (NoOp 1 false 0.5) {["img2" := "image"]}) = Return tbl /\
    tbl !! "image" = Some image_variant /\
    (forall h0, _get_target_function (add_targets (NoOp 1 false 0.5) {["img2" := "image"]})
                  "img2" h0 = Ok image_variant h0) /\
    (forall h0, _get_target_function (add_targets (NoOp 1 false 0.5) {["img2" := "image"]})
                  "image" h0 = Ok image_variant h0) /\
    (base (NoOp 1 false 0.5) = DualTransformClass ->
     image_variant = _apply (add_targets (NoOp 1 false 0.5) {["img2" := "image"]})) /\
    (base (NoOp 1 false 0.5) = ImageOnlyTransformClass ->
     image_variant = apply (add_targets (NoOp 1 false 0.5) {["img2" := "image"]})) /\
    exists shared deps hi r hi',
      collect [("image", VRef 0%nat); ("img2", VRef 1%nat)]
        (default [] (target_dependence (NoOp 1 false 0.5) !! "img2")) ∅ hi = Ok deps hi /\
      image_variant (VRef 1%nat) (deps ∪ shared) hi = Ok r hi' /\
      [("image", VRef 0%nat); ("img2", VRef 1%nat)] !! 1%nat = Some ("img2", r).
Proof.
  apply (alias_routes_own_value (NoOp 1 false 0.5) 0.9 true
           [("image", VRef 0%nat); ("img2", VRef 1%nat)]
           [tarray [1; 2] [10; 20] []; tarray [1; 2] [30; 40] []]
           [("image", VRef 0%nat); ("img2", VRef 1%nat)]
           [tarray [1; 2] [10; 20] [Entry 1 (geometry 1 2)];
            tarray [1; 2] [30; 40] [Entry 1 (geometry 1 2)]]
           1%nat (VRef 1%nat)).
  - reflexivity.
  - reflexivity.
  - discriminate.
  - vm_compute. reflexivity.
Defined.

(** C8: when the canonical name of a key is not in the transform's
    [targets], the router hands out the identity function instead of
    failing; the turn of the loop for that key, its declared dependencies
    being in the bundle, gives the artifact back and leaves the store as
    it found it, so that no history is touched; and the bundle a call
    returns holds the very same value under that key. *)
Theorem unregistered_key_untouched (self : transform) (tbl : gmap string target_function)
    (draw : Q) (force_apply : bool) (kwargs : bundle) (i : nat) (key : string)
    (arg : value) :
  targets self = Return tbl ->
  tbl !! transform_key self key = None ->
  kwargs !! i = Some (key, arg) ->
  (forall h, _get_target_function self key h = Ok identity_function h) /\
  (forall ps h,
     Forall (fun k => is_Some (kwargs_lookup kwargs k))
            (default [] (target_dependence self !! key)) ->
     transform_item self kwargs ps (key, arg) h = Ok (key, arg) h) /\
  (forall h res h',
     __call__ self draw force_apply kwargs h = Ok res h' ->
     res !! i = Some (key, arg)).
Proof.
  intros Ht Hnone Hi.
  assert (Hroute : forall h, _get_target_function self key h = Ok identity_function h).
  { intros h. rewrite (get_target_function_Ok _ _ _ _ Ht), Hnone. reflexivity. }
  split; [exact Hroute|]. split.
  - intros ps h Hdeps.
    destruct (value_is_none arg) as [->|Hn]; [reflexivity|].
    rewrite transform_item_present by exact Hn.
    step_M. rewrite Hroute.
    destruct (collect_present kwargs _ ∅ h Hdeps) as [d ->]. reflexivity.
  - intros h res h' Hcall.
    destruct (active self draw force_apply) eqn:Ha.
    + destruct (call_active_lookup _ _ _ _ _ _ _ _ _ Ha Hcall Hi)
        as (ps & hi & out & hi' & Hitem & Hres).
      rewrite Hres. f_equal.
      destruct (value_is_none arg) as [->|Hn].
      * injection Hitem as <- _. reflexivity.
      * rewrite transform_item_present in Hitem by exact Hn.
        apply bind_Ok in Hitem as (f & h1 & Hf & Hitem).
        rewrite Hroute in Hf. injection Hf as <- <-.
        apply bind_Ok in Hitem as (deps & h2 & _ & Hitem).
        apply bind_Ok in Hitem as (r & h3 & Hr & Hret).
        injection Hr as <- _. injection Hret as <- _. reflexivity.
    + unfold __call__ in Hcall. rewrite Ha in Hcall. injection Hcall as <- _. exact Hi.
Qed.

Lemma unregistered_key_untouched_witness :
  (forall h,
     _get_target_function (ImageOnlyTransform_with 3 false 0.5 (fun img _ => ret img))
       "mask" h = Ok identity_function h) /\
  (forall ps h,
     Forall (fun k => is_Some (kwargs_lookup
                                 [("image", VRef 0%nat); ("mask", VRef 1%nat)] k))
            (default [] (target_dependence
                           (ImageOnlyTransform_with 3 false 0.5 (fun img _ => ret img))
                           !! "mask")) ->
     transform_item (ImageOnlyTransform_with 3 false 0.5 (fun img _ => ret img))
       [("image", VRef 0%nat); ("mask", VRef 1%nat)] ps ("mask", VRef 1%nat) h
     = Ok ("mask", VRef 1%nat) h) /\
  (forall h res h',
     __call__ (ImageOnlyTransform_with 3 false 0.5 (fun img _ => ret img)) 0.9 true
       [("image", VRef 0%nat); ("mask", VRef 1%nat)] h = Ok res h' ->
     res !! 1%nat = Some ("mask", VRef 1%nat)).
Proof.
  apply (unregistered_key_untouched
           (ImageOnlyTransform_with 3 false 0.5 (fun img _ => ret img))
           (<["image" := apply (ImageOnlyTransform_with 3 false 0.5 (fun img _ => ret img))]> ∅)
           0.9 true [("image", VRef 0%nat); ("mask", VRef 1%nat)] 1%nat "mask"
           (VRef 1%nat)).
  - reflexivity.
  - reflexivity.
  - reflexivity.
Defined.

(** ** Boxes, keypoints and masks *)

Lemma mapM_result {A B} (f : A -> result B) (xs : list A) :
  match mapM f xs with
  | Return ys => Forall2 (fun x y => f x = Return y) xs ys
  | Throw e => exists x, x ∈ xs /\ f x = Throw e
  end.
Proof.
  induction xs as [|x xs IH].
  - constructor.
  - change (mapM f (x :: xs)) with (y ← f x; k ← mapM f xs; mret (y :: k)).
    step_result.
    destruct (f x) as [y|e] eqn:Hx.
    + destruct (mapM f xs) as [ys|e].
      * constructor; assumption.
      * destruct IH as (x' & Hin & Hx'). exists x'. split; [right; exact Hin|exact Hx'].
    + exists x. split; [left|exact Hx].
Qed.

(** The head of a row goes through the primitive and the tail is put
    back behind it. *)
Lemma head_tail_rule (prim : list value -> params -> result (list value))
    (ps : params) (row out : list value) :
  (r ← prim (take 4 row) ps; mret (r ++ drop 4 row)) = Return out <->
  exists r, prim (take 4 row) ps = Return r /\ out = r ++ drop 4 row.
Proof.
  step_result. destruct (prim (take 4 row) ps) as [r|e]; split.
  - intros [= <-]. eauto.
  - intros (r' & [= <-] & ->). reflexivity.
  - discriminate.
  - intros (r' & [=] & _).
Qed.

Lemma head_tail_rule_Throw (prim : list value -> params -> result (list value))
    (ps : params) (row : list value) (e : exn) :
  (r ← prim (take 4 row) ps; mret (r ++ drop 4 row)) = Throw e ->
  prim (take 4 row) ps = Throw e.
Proof.
  step_result. destruct (prim (take 4 row) ps) as [r|e']; [discriminate|].
  intros [= <-]. reflexivity.
Qed.

Lemma rows_rule (prim : list value -> params -> result (list value))
    (rows : list (list value)) (ps : params) :
  Forall (fun row => (4 <= length row)%nat) rows ->
  match mapM (fun row => r ← prim (take 4 row) ps; mret (r ++ drop 4 row))
             (map py_list rows) with
  | Return out =>
    length out = length rows /\
    Forall2 (fun row o =>
               length (take 4 row) = 4%nat /\
               exists r, prim (take 4 row) ps = Return r /\ o = r ++ drop 4 row)
            rows out
  | Throw e => exists row, row ∈ rows /\ prim (take 4 row) ps = Throw e
  end.
Proof.
  intros Hlen. unfold py_list. rewrite map_id.
  pose proof (mapM_result (fun row => r ← prim (take 4 row) ps; mret (r ++ drop 4 row)) rows)
    as Hm.
  destruct (mapM _ rows) as [out|e].
  - split; [symmetry; eapply Forall2_length, Hm|].
    revert Hlen. induction Hm as [|row o rows out Hrow _ IH]; intros Hlen; [constructor|].
    inversion Hlen; subst. constructor; [|apply IH; assumption].
    split; [rewrite length_take; lia|]. apply head_tail_rule, Hrow.
  - destruct Hm as (row & Hin & Hrow). exists row.
    split; [exact Hin|]. apply head_tail_rule_Throw, Hrow.
Qed.

(** C4: [apply_to_bboxes], on boxes of at least four fields, returns as
    many boxes as it was given, in the same order; the box at each
    position is what [apply_to_bbox] made of the first four fields of the
    box given at that position, followed by the other fields of that box
    as they were.  It raises only what [apply_to_bbox] raises on one of
    the boxes.  [apply_to_keypoints] does the same with
    [apply_to_keypoint]. *)
Theorem boxes_keep_length_order_tail (self : transform)
    (bboxes keypoints : list (list value)) (ps : params) :
  Forall (fun bbox => (4 <= length bbox)%nat) bboxes ->
  Forall (fun keypoint => (4 <= length keypoint)%nat) keypoints ->
  match apply_to_bboxes self bboxes ps with
  | Return out =>
    length out = length bboxes /\
    Forall2 (fun bbox o =>
               length (take 4 bbox) = 4%nat /\
               exists r, apply_to_bbox self (take 4 bbox) ps = Return r /\
                         o = r ++ drop 4 bbox)
            bboxes out
  | Throw e => exists bbox, bbox ∈ bboxes /\ apply_to_bbox self (take 4 bbox) ps = Throw e
  end /\
  match apply_to_keypoints self keypoints ps with
  | Return out =>
    length out = length keypoints /\
    Forall2 (fun keypoint o =>
               length (take 4 keypoint) = 4%nat /\
               exists r, apply_to_keypoint self (take 4 keypoint) ps = Return r /\
                         o = r ++ drop 4 keypoint)
            keypoints out
  | Throw e =>
    exists keypoint,
      keypoint ∈ keypoints /\ apply_to_keypoint self (take 4 keypoint) ps = Throw e
  end.
Proof.
  intros Hb Hk. split.
  - exact (rows_rule (apply_to_bbox self) bboxes ps Hb).
  - exact (rows_rule (apply_to_keypoint self) keypoints ps Hk).
Qed.

Lemma boxes_keep_length_order_tail_witness :
  match apply_to_bboxes (NoOp 1 false 0.5)
          [[VInt 1; VInt 2; VInt 3; VInt 4; VStr "cat"]; [VInt 5; VInt 6; VInt 7; VInt 8]]
          (geometry 10 10) with
  | Return out =>
    length out = 2%nat /\
    Forall2 (fun bbox o =>
               length (take 4 bbox) = 4%nat /\
               exists r, apply_to_bbox (NoOp 1 false 0.5) (take 4 bbox) (geometry 10 10)
                         = Return r /\
                         o = r ++ drop 4 bbox)
            [[VInt 1; VInt 2; VInt 3; VInt 4; VStr "cat"]; [VInt 5; VInt 6; VInt 7; VInt 8]]
            out
  | Throw e =>
    exists bbox,
      bbox ∈ [[VInt 1; VInt 2; VInt 3; VInt 4; VStr "cat"]; [VInt 5; VInt 6; VInt 7; VInt 8]] /\
      apply_to_bbox (NoOp 1 false 0.5) (take 4 bbox) (geometry 10 10) = Throw e
  end /\
  match apply_to_keypoints (NoOp 1 false 0.5)
          [[VInt 1; VInt 2; VInt 0; VInt 1; VStr "nose"; VInt 9]] (geometry 10 10) with
  | Return out =>
    length out = 1%nat /\
    Forall2 (fun keypoint o =>
               length (take 4 keypoint) = 4%nat /\
               exists r, apply_to_keypoint (NoOp 1 false 0.5) (take 4 keypoint)
                           (geometry 10 10) = Return r /\
                         o = r ++ drop 4 keypoint)
            [[VInt 1; VInt 2; VInt 0; VInt 1; VStr "nose"; VInt 9]] out
  | Throw e =>
    exists keypoint,
      keypoint ∈ [[VInt 1; VInt 2; VInt 0; VInt 1; VStr "nose"; VInt 9]] /\
      apply_to_keypoint (NoOp 1 false 0.5) (take 4 keypoint) (geometry 10 10) = Throw e
  end.
Proof.
  apply (boxes_keep_length_order_tail (NoOp 1 false 0.5)
           [[VInt 1; VInt 2; VInt 3; VInt 4; VStr "cat"]; [VInt 5; VInt 6; VInt 7; VInt 8]]
           [[VInt 1; VInt 2; VInt 0; VInt 1; VStr "nose"; VInt 9]] (geometry 10 10)).
  - repeat constructor.
  - repeat constructor.
Defined.






(** With ['interpolation'] set to bilinear, the mask variant of a
    transform that hands back the interpolation it was called with hands
    back nearest-neighbour. *)
Example mask_gets_nearest :
  apply_to_mask
    (DualTransform_with 2 false 0.5 (Some (VInt 1))
       (fun img ps => ret (default img (ps !! "interpolation"))))
    (VRef 0%nat) (<["interpolation" := VInt 1]> (geometry 1 1)) [array [1; 1] [0]]
  = Ok INTER_NEAREST [array [1; 1] [0]].
Proof. vm_compute. reflexivity. Qed.

(** ** Provenance *)

(** On an object that has a history, [keep_memory] appends the entry in
    place. *)
Lemma keep_memory_appends (self : transform) (l : loc) (o : object) (hist : list entry)
    (ps : params) (h : store) :
  h !! l = Some o ->
  otransforms o = Slot hist ->
  keep_memory self (VRef l) ps h
  = Ok tt (<[l := Object (okind o) (opayload o) (Slot (hist ++ [Entry (ident self) ps]))]> h).
Proof.
  intros Hl Hs.
  unfold keep_memory, try_AttributeError, getattr_transforms, transforms_append, read, write,
    mbind, M_bind, bind, ret.
  rewrite Hl, Hs, Hl, Hs. reflexivity.
Qed.

(** On an object without a history that accepts attributes, it attaches
    an empty history and appends the entry to it, in place. *)
Lemma keep_memory_attaches (self : transform) (l : loc) (o : object) (ps : params)
    (h : store) :
  h !! l = Some o ->
  otransforms o = NoSlot ->
  accepts_attributes (okind o) = true ->
  keep_memory self (VRef l) ps h
  = Ok tt (<[l := Object (okind o) (opayload o) (Slot [Entry (ident self) ps])]> h).
Proof.
  intros Hl Hs Ha.
  assert (Hlt : (l < length h)%nat) by (eapply lookup_lt_Some, Hl).
  unfold keep_memory, try_AttributeError, getattr_transforms, setattr_transforms,
    transforms_append, read, write, mbind, M_bind, bind, ret, raise.
  rewrite Hl, Hs, Hl, Ha. rewrite list_lookup_insert_eq by exact Hlt. simpl.
  rewrite list_insert_insert_eq. reflexivity.
Qed.

Lemma store_lookup_new (h : store) (o : object) : (h ++ [o]) !! length h = Some o.
Proof. rewrite lookup_app_r, Nat.sub_diag by reflexivity. reflexivity. Qed.

Lemma store_insert_new (h : store) (o o' : object) :
  <[length h := o']> (h ++ [o]) = h ++ [o'].
Proof. rewrite insert_app_r_alt, Nat.sub_diag by reflexivity. reflexivity. Qed.

(** On a plain array or a plain list, the entry goes to a wrapper that is
    new in the store; the object itself stays as it was, and
    [keep_memory] does not hand the wrapper out. *)
Lemma keep_memory_wraps (self : transform) (l : loc) (o : object) (ps : params)
    (h : store) :
  h !! l = Some o ->
  otransforms o = NoSlot ->
  accepts_attributes (okind o) = false ->
  keep_memory self (VRef l) ps h
  = Ok tt (h ++ [Object match okind o with ndarray => TransformsArray | _ => TransformsList end
                   (opayload o) (Slot [Entry (ident self) ps])]).
Proof.
  intros Hl Hs Ha.
  unfold keep_memory, try_AttributeError, getattr_transforms, setattr_transforms,
    isinstance_ndarray, isinstance_list, TransformsArray_new, TransformsList_new,
    transforms_append, read, write, alloc, mbind, M_bind, bind, ret, raise.
  rewrite Hl, Hs, Hl, Ha, Hl.
  destruct o as [k pl s]; simpl in *.
  destruct k; try discriminate; repeat (rewrite Hl; simpl);
    rewrite store_lookup_new; simpl; rewrite store_insert_new; reflexivity.
Qed.

(** A number, a string or a tuple has no [transforms] and takes none, and
    is neither an array nor a list: [keep_memory] raises
    [AttributeError], the UnsupportedProvenanceTarget condition. *)
Lemma keep_memory_refuses (self : transform) (v : value) (ps : params) (h : store) :
  (forall l, v <> VRef l) ->
  keep_memory self v ps h = Raise UnsupportedProvenanceTarget h.
Proof.
  intros Hv. destruct v; try reflexivity. exfalso. eapply Hv. reflexivity.
Qed.

(** [_apply] records on the object it was given and then runs [apply] on
    that same object. *)
Lemma apply_records_then_runs (self : transform) (l : loc) (o : object)
    (hist : list entry) (ps : params) (h : store) :
  h !! l = Some o ->
  otransforms o = Slot hist ->
  _apply self (VRef l) ps h
  = apply self (VRef l) ps
      (<[l := Object (okind o) (opayload o) (Slot (hist ++ [Entry (ident self) ps]))]> h).
Proof.
  intros Hl Hs. unfold _apply. step_M.
  rewrite (keep_memory_appends _ _ _ _ _ _ Hl Hs). reflexivity.
Qed.

(** C1, on the code: the history of the returned artifact is not always
    one entry longer.  The ['image'] variant of an [ImageOnlyTransform] is
    [apply] itself, which records nothing: an image with an empty history
    comes back with an empty history.  The ['masks'] variant of a
    [DualTransform] is [apply_to_masks] itself: the list comes back as a
    new plain list without a history, while the image of the same call
    did gain its entry.  The ['bboxes'] variant records on the list it was
    given and returns a new plain list without a history. *)
Theorem history_not_extended :
  __call__ (ImageOnlyTransform_with 3 true 0 (fun img _ => ret img)) 0.9 false
    [("image", VRef 0%nat)] [tarray [1; 2] [10; 20] []]
  = Ok [("image", VRef 0%nat)] [tarray [1; 2] [10; 20] []] /\
  __call__ (NoOp 1 false 0.5) 0.9 true
    [("image", VRef 0%nat); ("masks", VRef 2%nat)]
    [tarray [1; 2] [10; 20] []; tarray [1; 2] [30; 40] []; tlist [VRef 1%nat] []]
  = Ok [("image", VRef 0%nat); ("masks", VRef 3%nat)]
       [tarray [1; 2] [10; 20] [Entry 1 (geometry 1 2)];
        tarray [1; 2] [30; 40] [];
        tlist [VRef 1%nat] [];
        Object pylist (Seq [VRef 1%nat]) NoSlot] /\
  __call__ (NoOp 1 false 0.5) 0.9 true
    [("image", VRef 0%nat); ("bboxes", VRef 1%nat)]
    [tarray [1; 2] [10; 20] [];
     tlist [VSeq [VInt 0; VInt 0; VInt 1; VInt 1; VStr "cat"]] []]
  = Ok [("image", VRef 0%nat); ("bboxes", VRef 2%nat)]
       [tarray [1; 2] [10; 20] [Entry 1 (geometry 1 2)];
        tlist [VSeq [VInt 0; VInt 0; VInt 1; VInt 1; VStr "cat"]] [Entry 1 (geometry 1 2)];
        Object pylist (Seq [VSeq [VInt 0; VInt 0; VInt 1; VInt 1; VStr "cat"]]) NoSlot].
Proof.
  repeat split; vm_compute; reflexivity.
Qed.

(** C2, on the code: for a plain array and for a plain list the wrapper
    is made and the entry is appended to it, but the wrapper stays inside
    [keep_memory].  The image handed back is the plain array it was, the
    boxes handed back are a new plain list, and neither carries a
    history; the two wrappers sit in the store with one entry each and
    nothing in the returned bundle refers to them. *)
Theorem wrapper_history_not_returned :
  __call__ (NoOp 7 false 0.5) 0.9 true
    [("image", VRef 0%nat); ("bboxes", VRef 1%nat)]
    [array [2; 2] [1; 2; 3; 4];
     Object pylist (Seq [VSeq [VInt 0; VInt 0; VInt 1; VInt 1; VStr "cat"]]) NoSlot]
  = Ok [("image", VRef 0%nat); ("bboxes", VRef 4%nat)]
       [array [2; 2] [1; 2; 3; 4];
        Object pylist (Seq [VSeq [VInt 0; VInt 0; VInt 1; VInt 1; VStr "cat"]]) NoSlot;
        tarray [2; 2] [1; 2; 3; 4] [Entry 7 (geometry 2 2)];
        tlist [VSeq [VInt 0; VInt 0; VInt 1; VInt 1; VStr "cat"]] [Entry 7 (geometry 2 2)];
        Object pylist (Seq [VSeq [VInt 0; VInt 0; VInt 1; VInt 1; VStr "cat"]]) NoSlot] /\
  history
    [array [2; 2] [1; 2; 3; 4];
     Object pylist (Seq [VSeq [VInt 0; VInt 0; VInt 1; VInt 1; VStr "cat"]]) NoSlot;
     tarray [2; 2] [1; 2; 3; 4] [Entry 7 (geometry 2 2)];
     tlist [VSeq [VInt 0; VInt 0; VInt 1; VInt 1; VStr "cat"]] [Entry 7 (geometry 2 2)];
     Object pylist (Seq [VSeq [VInt 0; VInt 0; VInt 1; VInt 1; VStr "cat"]]) NoSlot]
    (VRef 0%nat) = None /\
  history
    [array [2; 2] [1; 2; 3; 4];
     Object pylist (Seq [VSeq [VInt 0; VInt 0; VInt 1; VInt 1; VStr "cat"]]) NoSlot;
     tarray [2; 2] [1; 2; 3; 4] [Entry 7 (geometry 2 2)];
     tlist [VSeq [VInt 0; VInt 0; VInt 1; VInt 1; VStr "cat"]] [Entry 7 (geometry 2 2)];
     Object pylist (Seq [VSeq [VInt 0; VInt 0; VInt 1; VInt 1; VStr "cat"]]) NoSlot]
    (VRef 4%nat) = None.
Proof.
  repeat split; vm_compute; reflexivity.
Qed.

(** ** The engine on sample calls *)

(** A [DualTransform] that defines [apply] only fails on boxes when the
    primitive is reached, and not when the bundle has no boxes. *)
Example unimplemented_bbox_primitive :
  __call__ (DualTransform_with 2 false 1 None (fun img _ => ret img)) 0.3 false
    [("image", VRef 0%nat); ("bboxes", VRef 1%nat)]
    [tarray [1; 1] [0] []; tlist [VSeq [VInt 0; VInt 0; VInt 1; VInt 1]] []]
  = Raise NotImplementedError
      [tarray [1; 1] [0] [Entry 2 (geometry 1 1)];
       tlist [VSeq [VInt 0; VInt 0; VInt 1; VInt 1]] [Entry 2 (geometry 1 1)]] /\
  __call__ (DualTransform_with 2 false 1 None (fun img _ => ret img)) 0.3 false
    [("image", VRef 0%nat); ("bboxes", VNone)] [tarray [1; 1] [0] []]
  = Ok [("image", VRef 0%nat); ("bboxes", VNone)]
       [tarray [1; 1] [0] [Entry 2 (geometry 1 1)]].
Proof. split; vm_compute; reflexivity. Qed.

(** Boxes passed as a tuple cannot carry a history. *)
Example tuple_of_boxes_refused :
  __call__ (NoOp 1 true 0) 0.3 false
    [("image", VRef 0%nat); ("bboxes", VSeq [VSeq [VInt 0; VInt 0; VInt 1; VInt 1]])]
    [tarray [1; 1] [0] []]
  = Raise UnsupportedProvenanceTarget [tarray [1; 1] [0] [Entry 1 (geometry 1 1)]].
Proof. vm_compute. reflexivity. Qed.

(** The alias of a first registration is gone after a second one: the
    key is routed by its own name, which [targets] does not hold. *)
Example alias_dropped_by_second_registration :
  transform_key (add_targets (NoOp 1 false 0.5) {["img2" := "image"]}) "img2" = "image" /\
  transform_key
    (add_targets (add_targets (NoOp 1 false 0.5) {["img2" := "image"]})
       {["obj_mask" := "mask"]}) "img2" = "img2" /\
  __call__
    (add_targets (add_targets (NoOp 1 false 0.5) {["img2" := "image"]})
       {["obj_mask" := "mask"]}) 0.9 true
    [("image", VRef 0%nat); ("img2", VRef 1%nat)]
    [tarray [1; 2] [10; 20] []; tarray [1; 2] [30; 40] []]
  = Ok [("image", VRef 0%nat); ("img2", VRef 1%nat)]
       [tarray [1; 2] [10; 20] [Entry 1 (geometry 1 2)]; tarray [1; 2] [30; 40] []].
Proof. repeat split; vm_compute; reflexivity. Qed.

(** * Further properties of the code *)

(** ** [to_tuple] *)

(** X1: what [to_tuple] can do on integers, that is when [param] is
    [None], an integer, a list or tuple of integers or a value of a type
    it does not know, and [low] and [bias] are integers or absent.  It
    raises nothing but [ValueError], and only when [low] and [bias] are
    both given or [param] is of a type it does not know; it returns
    [None] only for [param = None]; a scalar gives a pair, and a list or
    tuple gives a tuple of its own length, whatever that length is. *)
Theorem to_tuple_outcome (prm : param) (low bias : option Z) :
  match to_tuple prm low bias with
  | Throw e => e = ValueError /\ ((is_Some low /\ is_Some bias) \/ prm = POther)
  | Return RNone => prm = PNone
  | Return (RTuple xs) =>
    (exists x, prm = PScalar x /\ length xs = 2%nat) \/
    (exists ys, prm = PSeq ys /\ length xs = length ys)
  end.
Proof.
  destruct low as [lo|], bias as [b|], prm as [|x|ys|]; simpl; eauto;
    try (right; eexists; split; [reflexivity|]; rewrite ?length_map; reflexivity);
    try (left; eexists; split; [reflexivity|]; destruct (lo <? x); reflexivity).
Qed.

(** X2: for an integer scalar and an integer [low], the result is the
    ordered pair of the two: the smaller first, whichever of the two was
    passed as [low]. *)
Theorem to_tuple_low_is_ordered (x lo : Z) :
  to_tuple (PScalar x) (Some lo) None = Return (RTuple [Z.min lo x; Z.max lo x]).
Proof.
  simpl. destruct (Z.ltb_spec lo x).
  - rewrite Z.min_l, Z.max_r by lia. reflexivity.
  - rewrite Z.min_r, Z.max_l by lia. reflexivity.
Qed.

(** X3: without [low], an integer scalar [x] with an integer [bias]
    (or none, which counts as zero) gives a pair centred on [bias] whose
    second component exceeds the first by [2 * x]: for a negative scalar
    the pair comes out upper bound first. *)
Theorem to_tuple_scalar_is_centred (x : Z) (bias : option Z) :
  exists first second,
    to_tuple (PScalar x) None bias = Return (RTuple [first; second]) /\
    first + second = 2 * default 0 bias /\
    second - first = 2 * x /\
    (first <= second <-> 0 <= x).
Proof.
  destruct bias as [b|]; simpl; eexists _, _; (split; [reflexivity|]); lia.
Qed.

(** X4: a list or tuple is passed through with [bias] added to each
    element, in order; [low] plays no part, and nothing asks for exactly
    two elements. *)
Theorem to_tuple_sequence_passes_through (xs : list Z) (low bias : option Z) :
  low = None \/ bias = None ->
  to_tuple (PSeq xs) low bias
  = Return (RTuple (match bias with
                    | Some b => map (Z.add b) xs
                    | None => xs
                    end)).
Proof.
  intros [-> | ->]; [destruct bias|destruct low]; reflexivity.
Qed.

Lemma to_tuple_sequence_passes_through_witness :
  to_tuple (PSeq [1; 2; 3]) (Some 7) None = Return (RTuple [1; 2; 3]).
Proof.
  apply (to_tuple_sequence_passes_through [1; 2; 3] (Some 7) None).
  right. reflexivity.
Defined.

(** ** Activation *)

(** X5: a call whose draw is not below [p], on a transform without
    [always_apply] and without [force_apply], returns the bundle as it is
    and touches nothing; in particular a bundle without ['image'] is no
    error then. *)
Theorem inactive_call_is_identity (self : transform) (draw : Q) (kwargs : bundle)
    (h : store) :
  (p self <= draw)%Q ->
  always_apply self = false ->
  __call__ self draw false kwargs h = Ok kwargs h.
Proof.
  intros Hp Ha. apply inactive_call. unfold active. rewrite Ha.
  destruct (Qltb draw (p self)) eqn:E; [|reflexivity].
  apply Qltb_lt in E. exfalso. exact (Qlt_not_le _ _ E Hp).
Qed.

Lemma inactive_call_is_identity_witness :
  __call__ (NoOp 1 false 0.5) 0.5 false [("bboxes", VRef 0%nat)] [tlist [] []]
  = Ok [("bboxes", VRef 0%nat)] [tlist [] []].
Proof.
  apply (inactive_call_is_identity (NoOp 1 false 0.5) 0.5).
  - discriminate.
  - reflexivity.
Defined.

(** X6: with [force_apply], or on a transform built with [always_apply],
    the outcome of a call depends neither on the draw nor on [p]. *)
Theorem forced_call_ignores_draw (self : transform) (draw draw' prob : Q)
    (force_apply : bool) (kwargs : bundle) (h : store) :
  force_apply = true \/ always_apply self = true ->
  __call__ self draw force_apply kwargs h
  = __call__
      (Transform (ident self) (base self) prob (always_apply self) (_additional_targets self)
         (interpolation self) (fill_value self) (get_params self) (targets_as_params self)
         (target_dependence self) (def_get_params_dependent_on_targets self)
         (def_apply self) (def_apply_to_mask self) (def_apply_to_bbox self)
         (def_apply_to_keypoint self))
      draw' force_apply kwargs h.
Proof.
  intros Hf. unfold __call__, active. simpl.
  assert (E : forall b b', (b || always_apply self || force_apply
                            = b' || always_apply self || force_apply)%bool).
  { intros b b'.
    destruct Hf as [-> | Ha]; [destruct b, b', (always_apply self)
                              |rewrite Ha; destruct b, b', force_apply]; reflexivity. }
  rewrite (E (Qltb draw (p self)) true), (E (Qltb draw' prob) true). reflexivity.
Qed.

Lemma forced_call_ignores_draw_witness :
  __call__ (NoOp 1 false 0) 0.9 true [("image", VRef 0%nat)] [tarray [1; 1] [0] []]
  = __call__ (NoOp 1 false 1) 0.1 true [("image", VRef 0%nat)] [tarray [1; 1] [0] []].
Proof.
  apply (forced_call_ignores_draw (NoOp 1 false 0) 0.9 0.1 1 true).
  left. reflexivity.
Defined.

(** ** The loop over the bundle *)

Lemma transform_item_key (self : transform) (kwargs : bundle) (ps : params)
    (item out : string * value) (h h' : store) :
  transform_item self kwargs ps item h = Ok out h' ->
  out.1 = item.1 /\ (item.2 = VNone -> out = item /\ h' = h).
Proof.
  destruct item as [key arg]. intros H.
  destruct (value_is_none arg) as [->|Hn].
  - injection H as <- <-. auto.
  - rewrite transform_item_present in H by exact Hn.
    apply bind_Ok in H as (f & h1 & _ & H).
    apply bind_Ok in H as (deps & h2 & _ & H).
    apply bind_Ok in H as (r & h3 & _ & H).
    injection H as <- _. split; [reflexivity|]. intros E. contradiction.
Qed.

Lemma threaded_Forall2 {A B} (f : A -> M B) xs h ys h' :
  threaded f xs h ys h' ->
  Forall2 (fun x y => exists hi hi', f x hi = Ok y hi') xs ys.
Proof. induction 1; constructor; eauto. Qed.

(** X7: the bundle a call returns has the keys of the bundle it was
    given, in the same order, and every key that held [None] still holds
    [None]. *)
Theorem call_keeps_keys (self : transform) (draw : Q) (force_apply : bool)
    (kwargs : bundle) (h : store) (res : bundle) (h' : store) :
  __call__ self draw force_apply kwargs h = Ok res h' ->
  map fst res = map fst kwargs /\
  forall i key, kwargs !! i = Some (key, VNone) -> res !! i = Some (key, VNone).
Proof.
  intros Hcall. destruct (active self draw force_apply) eqn:Ha.
  - assert (T : exists ps h2, threaded (transform_item self kwargs ps) kwargs h2 res h').
    { unfold __call__ in Hcall. rewrite Ha in Hcall.
      apply bind_Ok in Hcall as (ps0 & h1 & _ & Hcall).
      apply bind_Ok in Hcall as (ps & h2 & _ & Hcall).
      apply mapM_threaded in Hcall. eauto. }
    destruct T as (ps & h2 & T). split.
    + apply threaded_Forall2 in T. clear -T.
      induction T as [|x y xs ys (hi & hi' & Hxy) _ IH]; [reflexivity|].
      simpl. f_equal; [|exact IH].
      apply transform_item_key in Hxy. apply Hxy.
    + intros i key Hi.
      destruct (threaded_lookup _ _ _ _ _ _ _ T Hi) as (hi & out & hi' & Hout & Hres).
      apply transform_item_key in Hout as [_ Hout].
      destruct (Hout eq_refl) as [-> _]. exact Hres.
  - unfold __call__ in Hcall. rewrite Ha in Hcall. injection Hcall as <- _. auto.
Qed.

Lemma call_keeps_keys_witness :
  map fst [("image", VRef 0%nat); ("mask", VNone)]
  = map fst [("image", VRef 0%nat); ("mask", VNone)] /\
  forall i key,
    [("image", VRef 0%nat); ("mask", VNone)] !! i = Some (key, VNone) ->
    [("image", VRef 0%nat); ("mask", VNone)] !! i = Some (key, VNone).
Proof.
  apply (call_keeps_keys (NoOp 1 false 0.5) 0.9 true
           [("image", VRef 0%nat); ("mask", VNone)] [tarray [1; 1] [0] []]
           [("image", VRef 0%nat); ("mask", VNone)]
           [tarray [1; 1] [0] [Entry 1 (geometry 1 1)]]).
  vm_compute. reflexivity.
Defined.

(** ** Frame geometry *)

(** The parameter set after the two [hasattr] tests of [update_params]. *)
Lemma update_params_Ok (self : transform) (ps : params) (kwargs : bundle) (h : store)
    (l : loc) (o : object) (rows cols : Z) (rest data : list Z) :
  kwargs_lookup kwargs "image" = Some (VRef l) ->
  h !! l = Some o ->
  opayload o = Pixels (rows :: cols :: rest) data ->
  update_params self ps kwargs h
  = Ok (<["rows" := VInt rows]>
         (<["cols" := VInt cols]>
           (match fill_value self with
            | Some v => <["fill_value" := v]>
            | None => id
            end
              (match interpolation self with
               | Some v => <["interpolation" := v]> ps
               | None => ps
               end)))) h.
Proof.
  intros Hk Hl Hp. unfold update_params, getitem, shape_at, read. step_M.
  rewrite Hk. unfold ret. repeat (first [rewrite Hl|rewrite Hp]; simpl).
  destruct (fill_value self); reflexivity.
Qed.

Lemma update_params_Ok_inv (self : transform) (ps ps' : params) (kwargs : bundle)
    (h h' : store) :
  update_params self ps kwargs h = Ok ps' h' ->
  h' = h /\ exists l, kwargs_lookup kwargs "image" = Some (VRef l).
Proof.
  unfold update_params, getitem, shape_at, read. step_M. unfold ret, raise.
  destruct (kwargs_lookup kwargs "image") as [v|]; [|discriminate].
  destruct v as [| | |l|]; try discriminate.
  destruct (h !! l) as [o|] eqn:Hl; [|discriminate].
  destruct (opayload o) as [shape data|] eqn:Hp; [|discriminate].
  destruct (shape !! 1%nat); [|discriminate].
  simpl. rewrite Hl, Hp.
  destruct (shape !! 0%nat); [|discriminate].
  intros [= _ <-]. eauto.
Qed.

(** X8: on an image of at least two dimensions the parameter set of the
    call holds ['rows'] and ['cols'] as the first two entries of the
    shape, overriding what [get_params] had under those names; the
    attributes [interpolation] and [fill_value], when the transform has
    them, override as well; every other parameter is kept; and the store
    is only read. *)
Theorem update_params_sets_geometry (self : transform) (ps : params) (kwargs : bundle)
    (h : store) (l : loc) (o : object) (rows cols : Z) (rest data : list Z) :
  kwargs_lookup kwargs "image" = Some (VRef l) ->
  h !! l = Some o ->
  opayload o = Pixels (rows :: cols :: rest) data ->
  exists ps',
    update_params self ps kwargs h = Ok ps' h /\
    ps' !! "rows" = Some (VInt rows) /\
    ps' !! "cols" = Some (VInt cols) /\
    ps' !! "interpolation"
    = match interpolation self with Some v => Some v | None => ps !! "interpolation" end /\
    ps' !! "fill_value"
    = match fill_value self with Some v => Some v | None => ps !! "fill_value" end /\
    forall k,
      k <> "rows" -> k <> "cols" -> k <> "interpolation" -> k <> "fill_value" ->
      ps' !! k = ps !! k.
Proof.
  intros Hk Hl Hp. eexists. split; [eapply update_params_Ok; eassumption|].
  repeat split.
  - apply lookup_insert_eq.
  - rewrite lookup_insert_ne by discriminate. apply lookup_insert_eq.
  - rewrite !lookup_insert_ne by discriminate.
    destruct (fill_value self), (interpolation self); simpl;
      rewrite ?lookup_insert_ne by discriminate; rewrite ?lookup_insert_eq; reflexivity.
  - rewrite !lookup_insert_ne by discriminate.
    destruct (fill_value self), (interpolation self); simpl;
      rewrite ?lookup_insert_eq; rewrite ?lookup_insert_ne by discriminate; reflexivity.
  - intros k H1 H2 H3 H4. rewrite !lookup_insert_ne by congruence.
    destruct (fill_value self), (interpolation self); simpl;
      rewrite ?lookup_insert_ne by congruence; reflexivity.
Qed.

Lemma update_params_sets_geometry_witness :
  exists ps',
    update_params (DualTransform_with 2 false 0.5 (Some (VInt 1)) (fun img _ => ret img))
      {["rows" := VInt 99; "scale" := VInt 3]} [("image", VRef 0%nat)]
      [array [4; 6; 3] []] = Ok ps' [array [4; 6; 3] []] /\
    ps' !! "rows" = Some (VInt 4) /\
    ps' !! "cols" = Some (VInt 6) /\
    ps' !! "interpolation" = Some (VInt 1) /\
    ps' !! "fill_value" = ({["rows" := VInt 99; "scale" := VInt 3]} : params) !! "fill_value" /\
    forall k,
      k <> "rows" -> k <> "cols" -> k <> "interpolation" -> k <> "fill_value" ->
      ps' !! k = ({["rows" := VInt 99; "scale" := VInt 3]} : params) !! k.
Proof.
  apply (update_params_sets_geometry
           (DualTransform_with 2 false 0.5 (Some (VInt 1)) (fun img _ => ret img))
           {["rows" := VInt 99; "scale" := VInt 3]} [("image", VRef 0%nat)]
           [array [4; 6; 3] []] 0%nat (array [4; 6; 3] []) 4 6 [3] []);
    reflexivity.
Defined.

(** X9: an active call whose ['image'] has no usable shape fails before
    any artifact is looked at: with [AttributeError] when the image is
    [None], a number, a string, a tuple or a list, and with [IndexError]
    when it is an array of fewer than two dimensions. *)
Theorem image_without_geometry_fails (self : transform) (draw : Q) (force_apply : bool)
    (kwargs : bundle) (h : store) (v : value) :
  active self draw force_apply = true ->
  kwargs_lookup kwargs "image" = Some v ->
  match v with
  | VRef l =>
    match opayload <$> h !! l with
    | Some (Pixels (_ :: _ :: _) _) => True
    | Some (Pixels _ _) => __call__ self draw force_apply kwargs h = Raise IndexError h
    | Some (Seq _) => __call__ self draw force_apply kwargs h = Raise AttributeError h
    | None => True
    end
  | _ => __call__ self draw force_apply kwargs h = Raise AttributeError h
  end.
Proof.
  intros Ha Hk. unfold __call__. rewrite Ha.
  unfold update_params, getitem, shape_at, read. step_M. rewrite Hk.
  destruct v as [| | |l|]; try reflexivity.
  unfold ret. destruct (h !! l) as [o|] eqn:Hl; simpl; [|exact I].
  destruct (opayload o) as [shape data|] eqn:Hp; simpl; [|reflexivity].
  destruct shape as [|r [|c rest]]; simpl; try exact I; reflexivity.
Qed.

Lemma image_without_geometry_fails_witness :
  __call__ (NoOp 1 false 0.5) 0.1 false [("image", VNone); ("mask", VRef 0%nat)]
    [array [2; 2] [0; 0; 0; 0]]
  = Raise AttributeError [array [2; 2] [0; 0; 0; 0]].
Proof.
  apply (image_without_geometry_fails (NoOp 1 false 0.5) 0.1 false
           [("image", VNone); ("mask", VRef 0%nat)] [array [2; 2] [0; 0; 0; 0]] VNone);
    reflexivity.
Defined.

(** ** Parameters that depend on targets *)

Lemma collect_missing (kwargs : bundle) (before : list string) (k : string)
    (after : list string) (acc : params) (h : store) :
  Forall (fun k' => is_Some (kwargs_lookup kwargs k')) before ->
  kwargs_lookup kwargs k = None ->
  collect kwargs (before ++ k :: after) acc h = Raise (KeyError k) h.
Proof.
  intros F Hk. revert acc. induction F as [|k0 ks [v Hv] _ IH]; intros acc; simpl.
  - step_M. rewrite getitem_store, Hk. reflexivity.
  - step_M. rewrite getitem_store, Hv. apply IH.
Qed.

(** X10: when a key named in [targets_as_params] is not in the bundle,
    an active call raises [KeyError] for the first such key, the
    MissingDependencyArtifact condition, and no artifact has been
    touched. *)
Theorem missing_params_target_fails (self : transform) (draw : Q) (force_apply : bool)
    (kwargs : bundle) (h : store) (l : loc) (o : object) (rows cols : Z)
    (rest data : list Z) (before : list string) (k : string) (after : list string) :
  active self draw force_apply = true ->
  kwargs_lookup kwargs "image" = Some (VRef l) ->
  h !! l = Some o ->
  opayload o = Pixels (rows :: cols :: rest) data ->
  targets_as_params self = before ++ k :: after ->
  Forall (fun k' => is_Some (kwargs_lookup kwargs k')) before ->
  kwargs_lookup kwargs k = None ->
  __call__ self draw force_apply kwargs h = Raise (MissingDependencyArtifact k) h.
Proof.
  intros Ha Hk Hl Hp Ht F Hmiss. unfold __call__. rewrite Ha. step_M.
  rewrite (update_params_Ok _ _ _ _ _ _ _ _ _ _ Hk Hl Hp).
  destruct (targets_as_params self) as [|k0 ks] eqn:E.
  - destruct before; discriminate.
  - rewrite Ht. rewrite (collect_missing _ _ _ _ _ _ F Hmiss). reflexivity.
Qed.

(** X11: a class that names keys in [targets_as_params] without defining
    [get_params_dependent_on_targets] cannot be applied: with every named
    key in the bundle an active call raises [NotImplementedError], and no
    artifact has been touched. *)
Theorem params_dependent_on_targets_unimplemented (self : transform) (draw : Q)
    (force_apply : bool) (kwargs : bundle) (h : store) (l : loc) (o : object)
    (rows cols : Z) (rest data : list Z) :
  active self draw force_apply = true ->
  kwargs_lookup kwargs "image" = Some (VRef l) ->
  h !! l = Some o ->
  opayload o = Pixels (rows :: cols :: rest) data ->
  targets_as_params self <> [] ->
  Forall (fun k => is_Some (kwargs_lookup kwargs k)) (targets_as_params self) ->
  def_get_params_dependent_on_targets self = None ->
  __call__ self draw force_apply kwargs h = Raise NotImplementedError h.
Proof.
  intros Ha Hk Hl Hp Hne F Hdef. unfold __call__. rewrite Ha. step_M.
  rewrite (update_params_Ok _ _ _ _ _ _ _ _ _ _ Hk Hl Hp).
  destruct (targets_as_params self) as [|k0 ks] eqn:E; [contradiction|].
  destruct (collect_present kwargs (k0 :: ks) ∅ h F) as [d ->].
  unfold get_params_dependent_on_targets. rewrite Hdef. reflexivity.
Qed.

Lemma missing_params_target_fails_witness :
  __call__ (DualTransform_with_targets 4 ["image"; "bboxes"; "mask"] ∅ None) 0.2 false
    [("image", VRef 0%nat); ("mask", VRef 0%nat)] [tarray [2; 2] [0; 0; 0; 0] []]
  = Raise (MissingDependencyArtifact "bboxes") [tarray [2; 2] [0; 0; 0; 0] []].
Proof.
  apply (missing_params_target_fails
           (DualTransform_with_targets 4 ["image"; "bboxes"; "mask"] ∅ None) 0.2 false
           [("image", VRef 0%nat); ("mask", VRef 0%nat)] [tarray [2; 2] [0; 0; 0; 0] []]
           0%nat (tarray [2; 2] [0; 0; 0; 0] []) 2 2 [] [0; 0; 0; 0]
           ["image"] "bboxes" ["mask"]); try reflexivity.
  repeat constructor. eexists. reflexivity.
Defined.

Lemma params_dependent_on_targets_unimplemented_witness :
  __call__ (DualTransform_with_targets 4 ["image"] ∅ None) 0.2 false
    [("image", VRef 0%nat)] [tarray [2; 2] [0; 0; 0; 0] []]
  = Raise NotImplementedError [tarray [2; 2] [0; 0; 0; 0] []].
Proof.
  apply (params_dependent_on_targets_unimplemented
           (DualTransform_with_targets 4 ["image"] ∅ None) 0.2 false
           [("image", VRef 0%nat)] [tarray [2; 2] [0; 0; 0; 0] []]
           0%nat (tarray [2; 2] [0; 0; 0; 0] []) 2 2 [] [0; 0; 0; 0]); try reflexivity.
  - discriminate.
  - repeat constructor. eexists. reflexivity.
Defined.

(** ** Classes without [targets] *)

Lemma kwargs_lookup_index (kwargs : bundle) (k : string) (v : value) :
  kwargs_lookup kwargs k = Some v -> exists i, kwargs !! i = Some (k, v).
Proof.
  induction kwargs as [|[k' v'] rest IH]; simpl; [discriminate|].
  destruct (decide (k' = k)) as [->|_].
  - intros [= ->]. exists 0%nat. reflexivity.
  - intros H. destruct (IH H) as [i Hi]. exists (S i). exact Hi.
Qed.

(** X12: a class that derives from [BasicTransform] without defining
    [targets] never completes an active call: whatever the bundle, the
    call raises. *)
Theorem call_without_targets_never_returns (self : transform) (draw : Q)
    (force_apply : bool) (kwargs : bundle) (h : store) :
  active self draw force_apply = true ->
  base self = BasicTransformClass ->
  exists e h', __call__ self draw force_apply kwargs h = Raise e h'.
Proof.
  intros Ha Hb.
  destruct (__call__ self draw force_apply kwargs h) as [res h'|e h'] eqn:Hcall; [|eauto].
  exfalso.
  assert (Himg : exists l, kwargs_lookup kwargs "image" = Some (VRef l)).
  { unfold __call__ in Hcall. rewrite Ha in Hcall.
    apply bind_Ok in Hcall as (ps0 & h1 & Hup & _).
    apply update_params_Ok_inv in Hup as [_ Hup]. exact Hup. }
  destruct Himg as [l Himg]. apply kwargs_lookup_index in Himg as [i Hi].
  destruct (call_active_lookup _ _ _ _ _ _ _ _ _ Ha Hcall Hi)
    as (ps & hi & out & hi' & Hitem & _).
  rewrite transform_item_present in Hitem by discriminate.
  apply bind_Ok in Hitem as (f & h1 & Hf & _).
  unfold _get_target_function, targets in Hf. rewrite Hb in Hf. discriminate.
Qed.

Lemma call_without_targets_never_returns_witness :
  exists e h',
    __call__ (BasicTransform_with 5 true 0 (fun img _ => ret img)) 0.5 false
      [("image", VRef 0%nat)] [tarray [2; 2] [0; 0; 0; 0] []] = Raise e h'.
Proof.
  apply (call_without_targets_never_returns
           (BasicTransform_with 5 true 0 (fun img _ => ret img)) 0.5 false
           [("image", VRef 0%nat)] [tarray [2; 2] [0; 0; 0; 0] []]); reflexivity.
Defined.

(** ** Dependencies of a target *)

(** X13: when [target_dependence] names, for a key of the bundle, a key
    that the bundle does not hold, the turn of the loop for that key
    raises [KeyError] for the first such name without calling the
    apply-variant: the store is as the turn found it. *)
Theorem missing_dependency_fails (self : transform) (tbl : gmap string target_function)
    (kwargs : bundle) (ps : params) (key : string) (arg : value) (h : store)
    (before : list string) (d : string) (after : list string) :
  targets self = Return tbl ->
  arg <> VNone ->
  target_dependence self !! key = Some (before ++ d :: after) ->
  Forall (fun k => is_Some (kwargs_lookup kwargs k)) before ->
  kwargs_lookup kwargs d = None ->
  transform_item self kwargs ps (key, arg) h = Raise (MissingDependencyArtifact d) h.
Proof.
  intros Ht Hn Hdep F Hmiss. rewrite transform_item_present by exact Hn. step_M.
  rewrite (get_target_function_Ok _ _ _ _ Ht), Hdep. simpl.
  rewrite (collect_missing _ _ _ _ _ _ F Hmiss). reflexivity.
Qed.

Lemma missing_dependency_fails_witness :
  transform_item
    (DualTransform_with_targets 4 [] {["mask" := ["bboxes"]]} None)
    [("image", VRef 0%nat); ("mask", VRef 1%nat)] (geometry 2 2) ("mask", VRef 1%nat)
    [tarray [2; 2] [0; 0; 0; 0] []; tarray [2; 2] [1; 1; 1; 1] []]
  = Raise (MissingDependencyArtifact "bboxes")
      [tarray [2; 2] [0; 0; 0; 0] []; tarray [2; 2] [1; 1; 1; 1] []].
Proof.
  apply (missing_dependency_fails
           (DualTransform_with_targets 4 [] {["mask" := ["bboxes"]]} None)
           (<["image" := _apply (DualTransform_with_targets 4 [] {["mask" := ["bboxes"]]} None)]>
           (<["mask" := _apply_to_mask
                          (DualTransform_with_targets 4 [] {["mask" := ["bboxes"]]} None)]>
           (<["masks" := on_items (apply_to_masks
                          (DualTransform_with_targets 4 [] {["mask" := ["bboxes"]]} None))]>
           (<["bboxes" := _apply_to_bboxes
                          (DualTransform_with_targets 4 [] {["mask" := ["bboxes"]]} None)]>
           (<["keypoints" := _apply_to_keypoints
                          (DualTransform_with_targets 4 [] {["mask" := ["bboxes"]]} None)]>
              ∅)))))
           [("image", VRef 0%nat); ("mask", VRef 1%nat)] (geometry 2 2) "mask" (VRef 1%nat)
           [tarray [2; 2] [0; 0; 0; 0] []; tarray [2; 2] [1; 1; 1; 1] []]
           [] "bboxes" []); try reflexivity.
  - discriminate.
  - constructor.
Defined.

(** ** Aliases *)

Lemma mapM_ext_Forall {A B} (f g : A -> M B) (xs : list A) :
  Forall (fun x => f x = g x) xs -> mapM f xs = mapM g xs.
Proof.
  induction 1 as [|x xs Hx _ IH]; [reflexivity|].
  change (mapM f (x :: xs)) with (y ← f x; k ← mapM f xs; mret (y :: k)).
  change (mapM g (x :: xs)) with (y ← g x; k ← mapM g xs; mret (y :: k)).
  rewrite Hx, IH. reflexivity.
Qed.

Lemma transform_key_add_targets (self : transform) (m : gmap string string) (key : string) :
  m !! key = _additional_targets self !! key ->
  transform_key (add_targets self m) key = transform_key self key.
Proof. intros E. unfold transform_key. simpl. rewrite E. reflexivity. Qed.

(** X14: only the keys of the bundle matter to the alias table: if a new
    table agrees with the current one on every key of the bundle, the
    call after [add_targets] has the outcome of the call before it. *)
Theorem aliases_of_absent_keys_change_nothing (self : transform) (m : gmap string string)
    (draw : Q) (force_apply : bool) (kwargs : bundle) (h : store) :
  Forall (fun item => m !! item.1 = _additional_targets self !! item.1) kwargs ->
  __call__ (add_targets self m) draw force_apply kwargs h
  = __call__ self draw force_apply kwargs h.
Proof.
  intros F.
  assert (E : forall ps,
             mapM (transform_item (add_targets self m) kwargs ps) kwargs
             = mapM (transform_item self kwargs ps) kwargs).
  { intros ps. apply mapM_ext_Forall.
    eapply Forall_impl; [exact F|]. intros [key arg] Hkey. simpl in Hkey.
    unfold transform_item, _get_target_function.
    rewrite targets_add_targets, (transform_key_add_targets _ _ _ Hkey).
    reflexivity. }
  unfold __call__.
  change (active (add_targets self m) draw force_apply) with (active self draw force_apply).
  destruct (active self draw force_apply); [|reflexivity].
  change (update_params (add_targets self m)) with (update_params self).
  change (get_params (add_targets self m)) with (get_params self).
  change (targets_as_params (add_targets self m)) with (targets_as_params self).
  change (get_params_dependent_on_targets (add_targets self m))
    with (get_params_dependent_on_targets self).
  step_M.
  destruct (update_params self (get_params self) kwargs h) as [ps0 h1|e h1]; [|reflexivity].
  destruct (match targets_as_params self with
            | [] => ret ps0
            | _ :: _ =>
              fun h0 =>
                match collect kwargs (targets_as_params self) ∅ h0 with
                | Ok a h' =>
                  match get_params_dependent_on_targets self a h' with
                  | Ok a0 h'0 => ret (a0 ∪ ps0) h'0
                  | Raise e h'0 => Raise e h'0
                  end
                | Raise e h' => Raise e h'
                end
            end h1) as [ps h2|e h2] eqn:Hps.
  - destruct (targets_as_params self); rewrite Hps; rewrite E; reflexivity.
  - destruct (targets_as_params self); rewrite Hps; reflexivity.
Qed.

Lemma aliases_of_absent_keys_change_nothing_witness :
  __call__ (add_targets (NoOp 1 false 0.5) {["img2" := "image"]}) 0.9 true
    [("image", VRef 0%nat); ("mask", VRef 1%nat)]
    [tarray [1; 1] [0] []; tarray [1; 1] [1] []]
  = __call__ (NoOp 1 false 0.5) 0.9 true
      [("image", VRef 0%nat); ("mask", VRef 1%nat)]
      [tarray [1; 1] [0] []; tarray [1; 1] [1] []].
Proof.
  apply (aliases_of_absent_keys_change_nothing (NoOp 1 false 0.5) {["img2" := "image"]}
           0.9 true [("image", VRef 0%nat); ("mask", VRef 1%nat)]
           [tarray [1; 1] [0] []; tarray [1; 1] [1] []]).
  repeat constructor.
Defined.

(** ** Histories only grow *)

Lemma keeps_histories_refl (h : store) : keeps_histories h h.
Proof.
  intros l o Hl. exists o. repeat split; [exact Hl|].
  intros hist Hs. exists []. rewrite app_nil_r. exact Hs.
Qed.

Lemma keeps_histories_trans (h1 h2 h3 : store) :
  keeps_histories h1 h2 -> keeps_histories h2 h3 -> keeps_histories h1 h3.
Proof.
  intros H12 H23 l o Hl.
  destruct (H12 l o Hl) as (o2 & Hl2 & Hk2 & Hp2 & Hs2).
  destruct (H23 l o2 Hl2) as (o3 & Hl3 & Hk3 & Hp3 & Hs3).
  exists o3. repeat split; [exact Hl3|congruence|congruence|].
  intros hist Hs. destruct (Hs2 hist Hs) as [more2 Hm2].
  destruct (Hs3 _ Hm2) as [more3 Hm3].
  exists (more2 ++ more3). rewrite Hm3, app_assoc. reflexivity.
Qed.

Lemma keeps_histories_alloc (h : store) (o : object) : keeps_histories h (h ++ [o]).
Proof.
  intros l o0 Hl. exists o0. repeat split.
  - rewrite lookup_app_l by (eapply lookup_lt_Some, Hl). exact Hl.
  - intros hist Hs. exists []. rewrite app_nil_r. exact Hs.
Qed.

Lemma keeps_histories_write (h : store) (l : loc) (o o' : object) :
  h !! l = Some o ->
  okind o' = okind o ->
  opayload o' = opayload o ->
  (forall hist, otransforms o = Slot hist -> exists more, otransforms o' = Slot (hist ++ more)) ->
  keeps_histories h (<[l := o']> h).
Proof.
  intros Hl Hk Hp Hs l0 o0 Hl0. destruct (decide (l0 = l)) as [->|Hne].
  - assert (o0 = o) as -> by congruence.
    exists o'. repeat split; try assumption.
    apply list_lookup_insert_eq. eapply lookup_lt_Some, Hl.
  - rewrite list_lookup_insert_ne by congruence.
    apply (keeps_histories_refl h l0 o0 Hl0).
Qed.

Lemma safe_ret {A} (a : A) : safe (ret a).
Proof. intros h. apply keeps_histories_refl. Qed.

Lemma safe_raise {A} (e : exn) : safe (@raise A e).
Proof. intros h. apply keeps_histories_refl. Qed.

Lemma safe_bind {A B} (m : M A) (k : A -> M B) :
  safe m -> (forall a, safe (k a)) -> safe (m ≫= k).
Proof.
  intros Hm Hk h. step_M. specialize (Hm h).
  destruct (m h) as [a h1|e h1]; [|exact Hm].
  eapply keeps_histories_trans; [exact Hm|apply Hk].
Qed.

Lemma safe_lift {A} (r : result A) : safe (lift r).
Proof. destruct r; [apply safe_ret|apply safe_raise]. Qed.

Lemma safe_read (l : loc) : safe (read l).
Proof. intros h. unfold read. destruct (h !! l); apply keeps_histories_refl. Qed.

Lemma safe_alloc (o : object) : safe (alloc o).
Proof. intros h. apply keeps_histories_alloc. Qed.

Lemma safe_mapM {A B} (f : A -> M B) (xs : list A) :
  (forall x, safe (f x)) -> safe (mapM f xs).
Proof.
  intros Hf. induction xs as [|x xs IH]; [apply safe_ret|].
  change (mapM f (x :: xs)) with (y ← f x; k ← mapM f xs; mret (y :: k)).
  apply safe_bind; [apply Hf|]. intros y.
  apply safe_bind; [exact IH|]. intros k. apply safe_ret.
Qed.

Lemma safe_collect (kwargs : bundle) (ks : list string) (acc : params) :
  safe (collect kwargs ks acc).
Proof.
  intros h. destruct (collect_store kwargs ks acc h) as [[d ->]|[k ->]];
    apply keeps_histories_refl.
Qed.

Lemma safe_iterate (v : value) : safe (iterate v).
Proof.
  destruct v; try apply safe_raise; try apply safe_ret.
  apply safe_bind; [apply safe_read|]. intros o.
  destruct (opayload o); [apply safe_raise|apply safe_ret].
Qed.

Lemma safe_new_list (vs : list value) : safe (new_list vs).
Proof. apply safe_bind; [apply safe_alloc|]. intros l. apply safe_ret. Qed.

Lemma safe_shape_at (v : value) (i : nat) : safe (shape_at v i).
Proof.
  destruct v; try apply safe_raise.
  apply safe_bind; [apply safe_read|]. intros o.
  destruct (opayload o) as [shape data|]; [|apply safe_raise].
  destruct (shape !! i); [apply safe_ret|apply safe_raise].
Qed.

Lemma safe_getitem (kwargs : bundle) (k : string) : safe (getitem kwargs k).
Proof. unfold getitem. destruct (kwargs_lookup kwargs k); [apply safe_ret|apply safe_raise]. Qed.

Lemma keep_memory_outcome (self : transform) (quant : value) (ps : params) (h : store) :
  keeps_histories h (final_store (keep_memory self quant ps h)) /\
  forall e h', keep_memory self quant ps h = Raise e h' -> h' = h.
Proof.
  destruct quant as [| | |l|];
    try (split; [apply keeps_histories_refl|intros e h' [= _ <-]; reflexivity]).
  destruct (h !! l) as [o|] eqn:Hl.
  - destruct (otransforms o) as [| |hist] eqn:Hs.
    + destruct (accepts_attributes (okind o)) eqn:Ha.
      * rewrite (keep_memory_attaches _ _ _ _ _ Hl Hs Ha). split; [|discriminate].
        eapply keeps_histories_write; eauto. intros hist Hh. congruence.
      * rewrite (keep_memory_wraps _ _ _ _ _ Hl Hs Ha). split; [|discriminate].
        apply keeps_histories_alloc.
    + assert (E : keep_memory self (VRef l) ps h = Raise AttributeError h).
      { unfold keep_memory, try_AttributeError, getattr_transforms, transforms_append, read.
        step_M. unfold ret, raise. rewrite Hl, Hs, Hl, Hs. reflexivity. }
      rewrite E. split; [apply keeps_histories_refl|intros e h' [= _ <-]; reflexivity].
    + rewrite (keep_memory_appends _ _ _ _ _ _ Hl Hs). split; [|discriminate].
      eapply keeps_histories_write; eauto. intros hist' Hh.
      assert (hist' = hist) as -> by congruence. eauto.
  - assert (E : keep_memory self (VRef l) ps h = Raise Unmodelled h).
    { unfold keep_memory, try_AttributeError, getattr_transforms, read.
      step_M. rewrite Hl. reflexivity. }
    rewrite E. split; [apply keeps_histories_refl|intros e h' [= _ <-]; reflexivity].
Qed.

(** X15: [keep_memory] never removes an object or an entry: whether it
    returns or raises, every object of the store is still there with its
    class and content, and the history it had is the beginning of the
    history it has.  When it raises, the store is exactly as before. *)
Theorem keep_memory_never_truncates (self : transform) (quant : value) (ps : params)
    (h : store) :
  keeps_histories h (final_store (keep_memory self quant ps h)) /\
  forall e h', keep_memory self quant ps h = Raise e h' -> h' = h.
Proof. apply keep_memory_outcome. Qed.

Lemma safe_keep_memory (self : transform) (quant : value) (ps : params) :
  safe (keep_memory self quant ps).
Proof. intros h. apply keep_memory_outcome. Qed.

Lemma careful_identity_function : careful identity_function.
Proof. intros v ps. apply safe_ret. Qed.

Section CarefulLeaves.

(** A transform whose own leaf operations lose no history. *)
Variable self : transform.
Hypothesis careful_def_apply : forall f, def_apply self = Some f -> careful f.
Hypothesis careful_def_apply_to_mask : forall f, def_apply_to_mask self = Some f -> careful f.
Hypothesis careful_def_get_params :
  forall f, def_get_params_dependent_on_targets self = Some f -> forall tp, safe (f tp).

Lemma careful_apply : careful (apply self).
Proof.
  intros v ps. unfold apply. pose proof careful_def_apply as H.
  destruct (def_apply self) as [f|]; [apply (H f eq_refl)|apply safe_raise].
Qed.

Lemma careful_apply_to_mask : careful (apply_to_mask self).
Proof.
  intros v ps. unfold apply_to_mask. pose proof careful_def_apply_to_mask as H.
  destruct (def_apply_to_mask self) as [f|]; [apply (H f eq_refl)|apply careful_apply].
Qed.

Lemma careful_on_rows (f : list (list value) -> params -> result (list (list value))) :
  careful (on_rows f).
Proof.
  intros v ps. unfold on_rows.
  apply safe_bind; [apply safe_iterate|]. intros items.
  apply safe_bind; [apply safe_mapM, safe_iterate|]. intros rows.
  apply safe_bind; [apply safe_lift|]. intros out. apply safe_new_list.
Qed.

Lemma careful_targets (tbl : gmap string target_function) (k : string) (f : target_function) :
  targets self = Return tbl -> tbl !! k = Some f -> careful f.
Proof.
  unfold targets. destruct (base self); intros [= <-] Hk.
  - repeat (apply lookup_insert_Some in Hk as [[_ <-]|[_ Hk]]; [|]);
      try (rewrite lookup_empty in Hk; discriminate); intros v ps.
    + apply safe_bind; [apply safe_keep_memory|]. intros _. apply careful_apply.
    + apply safe_bind; [apply safe_keep_memory|]. intros _. apply careful_apply_to_mask.
    + apply safe_bind; [apply safe_iterate|]. intros items.
      apply safe_bind; [apply safe_mapM; intros m; apply careful_apply_to_mask|].
      intros out. apply safe_new_list.
    + apply safe_bind; [apply safe_keep_memory|]. intros _. apply careful_on_rows.
    + apply safe_bind; [apply safe_keep_memory|]. intros _. apply careful_on_rows.
  - apply lookup_insert_Some in Hk as [[_ <-]|[_ Hk]].
    + apply careful_apply.
    + rewrite lookup_empty in Hk. discriminate.
Qed.

Lemma safe_transform_item (kwargs : bundle) (ps : params) (item : string * value) :
  safe (transform_item self kwargs ps item).
Proof.
  destruct item as [key arg]. destruct (value_is_none arg) as [->|Hn]; [apply safe_ret|].
  rewrite transform_item_present by exact Hn.
  destruct (targets self) as [tbl|e] eqn:Ht; intros h.
  - step_M. rewrite (get_target_function_Ok _ _ _ _ Ht).
    refine (safe_bind (collect kwargs (default [] (target_dependence self !! key)) ∅)
              (fun deps => bind (default identity_function (tbl !! transform_key self key) arg
                                   (deps ∪ ps)) (fun r => ret (key, r))) _ _ h).
    + apply safe_collect.
    + intros deps. apply (safe_bind _ (fun r => ret (key, r))); [|intros r; apply safe_ret].
      destruct (tbl !! transform_key self key) as [f|] eqn:Hf; simpl.
      * apply (careful_targets tbl _ f Ht Hf).
      * apply careful_identity_function.
  - unfold _get_target_function. rewrite Ht. apply keeps_histories_refl.
Qed.

Lemma safe_update_params (ps : params) (kwargs : bundle) :
  safe (update_params self ps kwargs).
Proof.
  unfold update_params.
  apply safe_bind; [apply safe_getitem|]. intros image.
  apply safe_bind; [apply safe_shape_at|]. intros cols.
  apply safe_bind; [apply safe_getitem|]. intros image'.
  apply safe_bind; [apply safe_shape_at|]. intros rows. apply safe_ret.
Qed.

(** X16: the engine loses no history.  If the leaf operations a class
    defines lose none, then no call on the transform does: whether the
    call returns or raises, every object that was in the store is still
    there with its class and content, and each history begins with the
    entries it had. *)
Theorem call_never_truncates (draw : Q) (force_apply : bool) (kwargs : bundle) :
  safe (__call__ self draw force_apply kwargs).
Proof.
  unfold __call__. destruct (active self draw force_apply); [|apply safe_ret].
  apply safe_bind; [apply safe_update_params|]. intros ps0.
  apply safe_bind; [|intros ps; apply safe_mapM; intros item; apply safe_transform_item].
  destruct (targets_as_params self) as [|k ks]; [apply safe_ret|].
  apply safe_bind; [apply safe_collect|]. intros tp.
  apply safe_bind; [|intros d; apply safe_ret].
  unfold get_params_dependent_on_targets. pose proof careful_def_get_params as H.
  destruct (def_get_params_dependent_on_targets self) as [f|];
    [apply (H f eq_refl)|apply safe_raise].
Qed.

End CarefulLeaves.

Lemma call_never_truncates_witness :
  safe (__call__ (NoOp 1 false 0.5) 0.9 true [("image", VRef 0%nat); ("bboxes", VRef 1%nat)]).
Proof.
  apply (call_never_truncates (NoOp 1 false 0.5)).
  - intros f [= <-] v ps. apply safe_ret.
  - intros f [= <-] v ps. apply safe_ret.
  - intros f [=].
Defined.

(** ** Recording, step by step *)

(** X17: entries are kept in the order of the calls.  On an object that
    has a history, recording for one transform and then for another
    succeeds, and the history of that object is then the old entries
    followed by the entry of the first and then the entry of the second,
    each with the parameter set of its own call; the object keeps its
    class and its content. *)
Theorem recordings_are_ordered (first second : transform) (l : loc) (o : object)
    (hist : list entry) (ps1 ps2 : params) (h : store) :
  h !! l = Some o ->
  otransforms o = Slot hist ->
  exists h' o',
    (keep_memory first (VRef l) ps1;; keep_memory second (VRef l) ps2) h = Ok tt h' /\
    h' !! l = Some o' /\
    okind o' = okind o /\
    opayload o' = opayload o /\
    history h' (VRef l)
    = Some (hist ++ [Entry (ident first) ps1; Entry (ident second) ps2]).
Proof.
  intros Hl Hs.
  assert (Hlt : (l < length h)%nat) by (eapply lookup_lt_Some, Hl).
  eexists _, _. split.
  - step_M. rewrite (keep_memory_appends _ _ _ _ _ _ Hl Hs).
    erewrite keep_memory_appends;
      [reflexivity|apply list_lookup_insert_eq; exact Hlt|reflexivity].
  - unfold history. simpl.
    rewrite list_lookup_insert_eq by (rewrite length_insert; exact Hlt).
    rewrite <- app_assoc. auto.
Qed.

Lemma recordings_are_ordered_witness :
  exists h' o',
    (keep_memory (NoOp 1 false 0.5) (VRef 0%nat) (geometry 2 2);;
     keep_memory (NoOp 2 false 0.5) (VRef 0%nat) (geometry 4 4))
      [tarray [2; 2] [0; 0; 0; 0] [Entry 9 ∅]] = Ok tt h' /\
    h' !! 0%nat = Some o' /\
    okind o' = okind (tarray [2; 2] [0; 0; 0; 0] [Entry 9 ∅]) /\
    opayload o' = opayload (tarray [2; 2] [0; 0; 0; 0] [Entry 9 ∅]) /\
    history h' (VRef 0%nat)
    = Some ([Entry 9 ∅] ++ [Entry (ident (NoOp 1 false 0.5)) (geometry 2 2);
                            Entry (ident (NoOp 2 false 0.5)) (geometry 4 4)]).
Proof.
  apply (recordings_are_ordered (NoOp 1 false 0.5) (NoOp 2 false 0.5) 0%nat
           (tarray [2; 2] [0; 0; 0; 0] [Entry 9 ∅]) [Entry 9 ∅]); reflexivity.
Defined.

(** X18: an object that has no [transforms] but accepts attributes gets
    its history on the first recording, holding that one entry, in
    place: no other object of the store changes and none is added. *)
Theorem history_is_attached_lazily (self : transform) (l : loc) (o : object) (ps : params)
    (h : store) :
  h !! l = Some o ->
  otransforms o = NoSlot ->
  accepts_attributes (okind o) = true ->
  exists h',
    keep_memory self (VRef l) ps h = Ok tt h' /\
    history h' (VRef l) = Some [Entry (ident self) ps] /\
    length h' = length h /\
    forall l', l' <> l -> h' !! l' = h !! l'.
Proof.
  intros Hl Hs Ha. eexists. split; [apply (keep_memory_attaches _ _ _ _ _ Hl Hs Ha)|].
  assert (Hlt : (l < length h)%nat) by (eapply lookup_lt_Some, Hl).
  split; [|split].
  - unfold history. rewrite list_lookup_insert_eq by exact Hlt. reflexivity.
  - apply length_insert.
  - intros l' Hne. apply list_lookup_insert_ne. congruence.
Qed.

Lemma history_is_attached_lazily_witness :
  exists h',
    keep_memory (NoOp 1 false 0.5) (VRef 1%nat) (geometry 2 2)
      [array [2; 2] [0; 0; 0; 0]; Object instance (Pixels [2; 2] [1; 1; 1; 1]) NoSlot]
    = Ok tt h' /\
    history h' (VRef 1%nat) = Some [Entry (ident (NoOp 1 false 0.5)) (geometry 2 2)] /\
    length h'
    = length [array [2; 2] [0; 0; 0; 0]; Object instance (Pixels [2; 2] [1; 1; 1; 1]) NoSlot] /\
    forall l', l' <> 1%nat ->
      h' !! l'
      = [array [2; 2] [0; 0; 0; 0]; Object instance (Pixels [2; 2] [1; 1; 1; 1]) NoSlot] !! l'.
Proof.
  apply (history_is_attached_lazily (NoOp 1 false 0.5) 1%nat
           (Object instance (Pixels [2; 2] [1; 1; 1; 1]) NoSlot) (geometry 2 2)
           [array [2; 2] [0; 0; 0; 0]; Object instance (Pixels [2; 2] [1; 1; 1; 1]) NoSlot]);
    reflexivity.
Defined.

(** X19: recording fails with [AttributeError], and changes nothing,
    on a number, a string, a tuple or [None], and on an object whose
    [transforms] is bound to something that is not a list, such as
    [None]. *)
Theorem unsupported_target_is_refused (self : transform) (quant : value) (ps : params)
    (h : store) :
  (forall l, quant = VRef l -> exists o, h !! l = Some o /\ otransforms o = SlotOther) ->
  keep_memory self quant ps h = Raise UnsupportedProvenanceTarget h.
Proof.
  intros Hq. destruct quant as [| | |l|]; try reflexivity.
  destruct (Hq l eq_refl) as (o & Hl & Hs).
  unfold keep_memory, try_AttributeError, getattr_transforms, transforms_append, read.
  step_M. unfold ret, raise. rewrite Hl, Hs, Hl, Hs. reflexivity.
Qed.

Lemma unsupported_target_is_refused_witness :
  keep_memory (NoOp 1 false 0.5) (VRef 0%nat) (geometry 2 2)
    [Object TransformsArray (Pixels [2; 2] [0; 0; 0; 0]) SlotOther]
  = Raise UnsupportedProvenanceTarget
      [Object TransformsArray (Pixels [2; 2] [0; 0; 0; 0]) SlotOther].
Proof.
  apply (unsupported_target_is_refused (NoOp 1 false 0.5) (VRef 0%nat)).
  intros l [= <-]. eexists. split; reflexivity.
Defined.

(** ** Boxes and keypoints: edge cases *)

Lemma rows_with_identity (prim : list value -> params -> result (list value))
    (rows : list (list value)) (ps : params) :
  (forall row, prim row ps = Return row) ->
  mapM (fun row => r ← prim (take 4 row) ps; mret (r ++ drop 4 row)) (map py_list rows)
  = Return rows.
Proof.
  intros Hid. unfold py_list. rewrite map_id.
  induction rows as [|row rows IH]; [reflexivity|].
  change (mapM ?f (row :: rows)) with (y ← f row; k ← mapM f rows; mret (y :: k)).
  cbv beta. rewrite Hid, IH. simpl. rewrite take_drop. reflexivity.
Qed.

(** X20: [NoOp] gives every list of boxes and every list of keypoints
    back field for field, whatever the number of fields of each row. *)
Theorem noop_keeps_rows (id : nat) (aa : bool) (pr : Q) (rows : list (list value))
    (ps : params) :
  apply_to_bboxes (NoOp id aa pr) rows ps = Return rows /\
  apply_to_keypoints (NoOp id aa pr) rows ps = Return rows.
Proof.
  split; apply rows_with_identity; reflexivity.
Qed.

(** X21: a class that does not define [apply_to_bbox] can still be given
    an empty list of boxes, which comes back empty; on any other list
    [apply_to_bboxes] raises [NotImplementedError].  The same holds for
    keypoints and [apply_to_keypoint]. *)
Theorem unimplemented_primitive_needs_a_row (self : transform) (rows : list (list value))
    (ps : params) :
  (def_apply_to_bbox self = None ->
   apply_to_bboxes self rows ps
   = match rows with [] => Return [] | _ :: _ => Throw NotImplementedError end) /\
  (def_apply_to_keypoint self = None ->
   apply_to_keypoints self rows ps
   = match rows with [] => Return [] | _ :: _ => Throw NotImplementedError end).
Proof.
  split; intros Hdef; destruct rows as [|row rows]; try reflexivity.
  - unfold apply_to_bboxes. simpl. unfold apply_to_bbox. rewrite Hdef. reflexivity.
  - unfold apply_to_keypoints. simpl. unfold apply_to_keypoint. rewrite Hdef. reflexivity.
Qed.

Lemma unimplemented_primitive_needs_a_row_witness :
  apply_to_bboxes (DualTransform_with 2 false 0.5 None (fun img _ => ret img))
    [[VInt 0; VInt 0; VInt 1; VInt 1]] ∅
  = Throw NotImplementedError.
Proof.
  apply (proj1 (unimplemented_primitive_needs_a_row
                  (DualTransform_with 2 false 0.5 None (fun img _ => ret img))
                  [[VInt 0; VInt 0; VInt 1; VInt 1]] ∅)).
  reflexivity.
Defined.

(** X22: the number of fields of a box is not checked.  A box of four
    fields or fewer goes to [apply_to_bbox] whole and what the primitive
    returns is the new box, nothing being put behind it. *)
Theorem short_boxes_go_whole (self : transform) (bboxes : list (list value)) (ps : params) :
  Forall (fun bbox => (length bbox <= 4)%nat) bboxes ->
  apply_to_bboxes self bboxes ps = mapM (fun bbox => apply_to_bbox self bbox ps) bboxes.
Proof.
  intros F. unfold apply_to_bboxes, py_list. rewrite map_id.
  induction F as [|bbox bboxes Hlen _ IH]; [reflexivity|].
  change (mapM ?f (bbox :: bboxes)) with (y ← f bbox; k ← mapM f bboxes; mret (y :: k)).
  cbv beta. rewrite IH, take_ge, drop_ge by lia.
  step_result. destruct (apply_to_bbox self bbox ps) as [r|e]; [|reflexivity].
  rewrite app_nil_r. reflexivity.
Qed.

Lemma short_boxes_go_whole_witness :
  apply_to_bboxes (NoOp 1 false 0.5) [[VInt 3; VInt 4]; []] ∅
  = mapM (fun bbox => apply_to_bbox (NoOp 1 false 0.5) bbox ∅) [[VInt 3; VInt 4]; []].
Proof.
  apply (short_boxes_go_whole (NoOp 1 false 0.5) [[VInt 3; VInt 4]; []] ∅).
  repeat constructor.
Defined.

(** ** [NoOp] *)

Lemma keep_memory_then (self : transform) (quant : value) (ps : params) (k : M value)
    (h : store) (r : value) (h' : store) :
  (keep_memory self quant ps;; k) h = Ok r h' ->
  exists h1, keep_memory self quant ps h = Ok tt h1 /\ k h1 = Ok r h'.
Proof.
  intros H. apply bind_Ok in H as ([] & h1 & Hk & Hr). eauto.
Qed.

(** X23: an image or a mask, under its own name, under an alias of it or
    under a name [NoOp] does not know, goes through a call of [NoOp] as
    the very same object: the bundle returned holds under that key the
    value it was given. *)
Theorem noop_returns_same_object (id : nat) (aa : bool) (pr : Q) (m : gmap string string)
    (draw : Q) (force_apply : bool) (kwargs : bundle) (h : store) (res : bundle)
    (h' : store) (i : nat) (key : string) (arg : value) :
  __call__ (add_targets (NoOp id aa pr) m) draw force_apply kwargs h = Ok res h' ->
  kwargs !! i = Some (key, arg) ->
  transform_key (add_targets (NoOp id aa pr) m) key ∉ ["masks"; "bboxes"; "keypoints"] ->
  res !! i = Some (key, arg).
Proof.
  intros Hcall Hi Hkey.
  destruct (active (add_targets (NoOp id aa pr) m) draw force_apply) eqn:Ha.
  2:{ unfold __call__ in Hcall. rewrite Ha in Hcall. injection Hcall as <- _. exact Hi. }
  destruct (call_active_lookup _ _ _ _ _ _ _ _ _ Ha Hcall Hi)
    as (ps & hi & out & hi' & Hitem & Hres).
  rewrite Hres. f_equal.
  destruct (value_is_none arg) as [->|Hn]; [injection Hitem as <- _; reflexivity|].
  rewrite transform_item_present in Hitem by exact Hn.
  apply bind_Ok in Hitem as (f & h1 & Hf & Hitem).
  apply bind_Ok in Hitem as (deps & h2 & _ & Hitem).
  apply bind_Ok in Hitem as (r & h3 & Hr & Hret).
  injection Hret as <- _. f_equal.
  unfold _get_target_function in Hf. rewrite targets_add_targets in Hf.
  injection Hf as <- _. revert Hr Hkey.
  generalize (transform_key (add_targets (NoOp id aa pr) m) key). intros ck Hr Hkey.
  unfold targets in Hr. simpl in Hr.
  destruct (decide (ck = "image")) as [->|N1].
  { rewrite lookup_insert_eq in Hr. simpl in Hr.
    apply keep_memory_then in Hr as (h4 & _ & Hr). injection Hr as <- _. reflexivity. }
  rewrite lookup_insert_ne in Hr by congruence.
  destruct (decide (ck = "mask")) as [->|N2].
  { rewrite lookup_insert_eq in Hr. simpl in Hr.
    apply keep_memory_then in Hr as (h4 & _ & Hr). injection Hr as <- _. reflexivity. }
  rewrite lookup_insert_ne in Hr by congruence.
  assert (ck <> "masks" /\ ck <> "bboxes" /\ ck <> "keypoints") as (N3 & N4 & N5).
  { rewrite !not_elem_of_cons in Hkey. tauto. }
  rewrite !lookup_insert_ne, lookup_empty in Hr by congruence.
  injection Hr as <- _. reflexivity.
Qed.

Lemma noop_returns_same_object_witness :
  [("image", VRef 0%nat); ("img2", VRef 1%nat)] !! 1%nat = Some ("img2", VRef 1%nat).
Proof.
  apply (noop_returns_same_object 1 false 0.5 {["img2" := "image"]} 0.9 true
           [("image", VRef 0%nat); ("img2", VRef 1%nat)]
           [tarray [1; 2] [10; 20] []; tarray [1; 2] [30; 40] []]
           [("image", VRef 0%nat); ("img2", VRef 1%nat)]
           [tarray [1; 2] [10; 20] [Entry 1 (geometry 1 2)];
            tarray [1; 2] [30; 40] [Entry 1 (geometry 1 2)]]
           1%nat "img2" (VRef 1%nat)).
  - vm_compute. reflexivity.
  - reflexivity.
  - change (transform_key (add_targets (NoOp 1 false 0.5) {["img2" := "image"]}) "img2")
      with "image".
    rewrite !not_elem_of_cons. repeat split; try discriminate. apply not_elem_of_nil.
Defined.

Lemma mapM_ret_id (vs : list value) (h : store) :
  mapM (fun v : value => ret v) vs h = Ok vs h.
Proof.
  apply mapM_threaded. revert h.
  induction vs; intros h; econstructor; eauto.
Qed.

Lemma mapM_iterate_rows (rows : list (list value)) (h : store) :
  mapM iterate (VSeq <$> rows) h = Ok rows h.
Proof.
  apply mapM_threaded. revert h.
  induction rows; intros h; simpl; econstructor; eauto.
Qed.

(** X24: [NoOp] returns a list of masks as a new plain list of the same
    masks in the same order.  The list it was given is not touched, and
    the call is written to no history. *)
Theorem noop_copies_masks (id : nat) (aa : bool) (pr : Q) (l : loc) (o : object)
    (elems : list value) (ps : params) (h : store) :
  h !! l = Some o ->
  opayload o = Seq elems ->
  (variant ← _get_target_function (NoOp id aa pr) "masks"; variant (VRef l) ps) h
  = Ok (VRef (length h)) (h ++ [Object pylist (Seq elems) NoSlot]).
Proof.
  intros Hl Hp.
  change ((variant ← _get_target_function (NoOp id aa pr) "masks"; variant (VRef l) ps) h)
    with (on_items (apply_to_masks (NoOp id aa pr)) (VRef l) ps h).
  unfold on_items, iterate, read, new_list, alloc. step_M. rewrite Hl. unfold ret.
  rewrite Hp.
  change (apply_to_masks (NoOp id aa pr) elems ps h) with (mapM (fun v : value => ret v) elems h).
  rewrite mapM_ret_id. reflexivity.
Qed.

Lemma noop_copies_masks_witness :
  (variant ← _get_target_function (NoOp 1 false 0.5) "masks";
   variant (VRef 1%nat) (geometry 1 1))
    [tarray [1; 1] [0] []; tlist [VRef 0%nat] [Entry 9 ∅]]
  = Ok (VRef (length [tarray [1; 1] [0] []; tlist [VRef 0%nat] [Entry 9 ∅]]))
       ([tarray [1; 1] [0] []; tlist [VRef 0%nat] [Entry 9 ∅]]
        ++ [Object pylist (Seq [VRef 0%nat]) NoSlot]).
Proof.
  apply (noop_copies_masks 1 false 0.5 1%nat (tlist [VRef 0%nat] [Entry 9 ∅]) [VRef 0%nat]
           (geometry 1 1) [tarray [1; 1] [0] []; tlist [VRef 0%nat] [Entry 9 ∅]]);
    reflexivity.
Defined.

(** X25: on a list of boxes that has a history, the ['bboxes'] variant
    first writes the call to the history of that list and then runs
    [apply_to_bboxes] on its rows.  When that returns, the variant hands
    back a list that is new, a plain list of the rows returned, without
    a history; when it raises, the exception goes on to the caller.  In
    both cases the history of the list given is then the entries it had
    followed by the entry of this call. *)
Theorem boxes_variant_records_then_maps (self : transform) (l : loc) (o : object)
    (hist : list entry) (rows : list (list value)) (ps : params) (h : store) :
  h !! l = Some o ->
  otransforms o = Slot hist ->
  opayload o = Seq (VSeq <$> rows) ->
  match apply_to_bboxes self rows ps with
  | Return out =>
    exists l' h',
      _apply_to_bboxes self (VRef l) ps h = Ok (VRef l') h' /\
      h !! l' = None /\
      h' !! l' = Some (Object pylist (Seq (VSeq <$> out)) NoSlot) /\
      history h' (VRef l) = Some (hist ++ [Entry (ident self) ps])
  | Throw e =>
    exists h',
      _apply_to_bboxes self (VRef l) ps h = Raise e h' /\
      history h' (VRef l) = Some (hist ++ [Entry (ident self) ps])
  end.
Proof.
  intros Hl Hs Hp.
  assert (Hlt : (l < length h)%nat) by (eapply lookup_lt_Some, Hl).
  assert (E : _apply_to_bboxes self (VRef l) ps h
              = match apply_to_bboxes self rows ps with
                | Return out =>
                  Ok (VRef (length h))
                     (<[l := Object (okind o) (opayload o)
                               (Slot (hist ++ [Entry (ident self) ps]))]> h
                      ++ [Object pylist (Seq (VSeq <$> out)) NoSlot])
                | Throw e =>
                  Raise e (<[l := Object (okind o) (opayload o)
                                    (Slot (hist ++ [Entry (ident self) ps]))]> h)
                end).
  { unfold _apply_to_bboxes. step_M. rewrite (keep_memory_appends _ _ _ _ _ _ Hl Hs).
    unfold on_rows, iterate, read, new_list, alloc. step_M.
    rewrite list_lookup_insert_eq by exact Hlt. unfold ret. simpl. rewrite Hp.
    rewrite mapM_iterate_rows.
    destruct (apply_to_bboxes self rows ps) as [out|e]; simpl; [|reflexivity].
    rewrite length_insert. reflexivity. }
  rewrite E. destruct (apply_to_bboxes self rows ps) as [out|e].
  - eexists _, _. split; [reflexivity|]. split; [|split].
    + apply lookup_ge_None. lia.
    + rewrite <- (length_insert h l
                    (Object (okind o) (opayload o) (Slot (hist ++ [Entry (ident self) ps])))).
      apply store_lookup_new.
    + unfold history. rewrite lookup_app_l by (rewrite length_insert; exact Hlt).
      rewrite list_lookup_insert_eq by exact Hlt. reflexivity.
  - eexists. split; [reflexivity|].
    unfold history. rewrite list_lookup_insert_eq by exact Hlt. reflexivity.
Qed.

Lemma boxes_variant_records_then_maps_witness :
  match apply_to_bboxes (DualTransform_with 2 false 0.5 None (fun img _ => ret img))
          [[VInt 0; VInt 0; VInt 1; VInt 1]] (geometry 1 1) with
  | Return out =>
    exists l' h',
      _apply_to_bboxes (DualTransform_with 2 false 0.5 None (fun img _ => ret img))
        (VRef 0%nat) (geometry 1 1)
        [tlist (VSeq <$> [[VInt 0; VInt 0; VInt 1; VInt 1]]) [Entry 9 ∅]]
      = Ok (VRef l') h' /\
      [tlist (VSeq <$> [[VInt 0; VInt 0; VInt 1; VInt 1]]) [Entry 9 ∅]] !! l' = None /\
      h' !! l' = Some (Object pylist (Seq (VSeq <$> out)) NoSlot) /\
      history h' (VRef 0%nat)
      = Some ([Entry 9 ∅]
              ++ [Entry (ident (DualTransform_with 2 false 0.5 None (fun img _ => ret img)))
                    (geometry 1 1)])
  | Throw e =>
    exists h',
      _apply_to_bboxes (DualTransform_with 2 false 0.5 None (fun img _ => ret img))
        (VRef 0%nat) (geometry 1 1)
        [tlist (VSeq <$> [[VInt 0; VInt 0; VInt 1; VInt 1]]) [Entry 9 ∅]]
      = Raise e h' /\
      history h' (VRef 0%nat)
      = Some ([Entry 9 ∅]
              ++ [Entry (ident (DualTransform_with 2 false 0.5 None (fun img _ => ret img)))
                    (geometry 1 1)])
  end.
Proof.
  apply (boxes_variant_records_then_maps
           (DualTransform_with 2 false 0.5 None (fun img _ => ret img)) 0%nat
           (tlist (VSeq <$> [[VInt 0; VInt 0; VInt 1; VInt 1]]) [Entry 9 ∅]) [Entry 9 ∅]
           [[VInt 0; VInt 0; VInt 1; VInt 1]] (geometry 1 1)
           [tlist (VSeq <$> [[VInt 0; VInt 0; VInt 1; VInt 1]]) [Entry 9 ∅]]); reflexivity.
Defined.

(** ** [TransformsArray] *)

(** X26: the constructor of [TransformsArray] never takes a history over
    from the array it is given: the new array carries the list passed as
    [transforms], or an empty history when none is passed, even when the
    array given is a [TransformsArray] with entries of its own; and the
    array given is left as it was. *)
Theorem constructor_starts_history_afresh (l : loc) (o : object) (shape data : list Z)
    (transforms : option (list entry)) (h : store) :
  h !! l = Some o ->
  opayload o = Pixels shape data ->
  okind o = ndarray \/ okind o = TransformsArray ->
  exists obj h',
    TransformsArray___new__ (VRef l) transforms h = Ok obj h' /\
    history h' obj = Some (default [] transforms) /\
    obj <> VRef l /\
    h' !! l = Some o.
Proof.
  intros Hl Hp Hk.
  assert (Hlt : (l < length h)%nat) by (eapply lookup_lt_Some, Hl).
  unfold TransformsArray___new__, np_asarray, view_TransformsArray, setattr_transforms,
    read, write, alloc. step_M. unfold ret. rewrite Hl, Hp.
  destruct Hk as [Hk|Hk]; rewrite Hk; simpl.
  - rewrite Hl, Hp. simpl. rewrite store_lookup_new. simpl. rewrite store_insert_new.
    eexists _, _. split; [reflexivity|]. split; [|split].
    + unfold history. rewrite store_lookup_new. destruct transforms; reflexivity.
    + intros [= E]. lia.
    + rewrite lookup_app_l by exact Hlt. exact Hl.
  - rewrite store_lookup_new. simpl.
    replace (S (length h)) with (length (h ++ [Object ndarray (Pixels shape data) NoSlot]))
      by (rewrite length_app; simpl; lia).
    rewrite store_lookup_new. simpl. rewrite store_insert_new.
    eexists _, _. split; [reflexivity|]. split; [|split].
    + unfold history. rewrite store_lookup_new. destruct transforms; reflexivity.
    + intros [= E]. rewrite length_app in E. simpl in E. lia.
    + rewrite <- app_assoc, lookup_app_l by exact Hlt. exact Hl.
Qed.

Lemma constructor_starts_history_afresh_witness :
  exists obj h',
    TransformsArray___new__ (VRef 0%nat) None [tarray [1; 1] [0] [Entry 9 ∅]] = Ok obj h' /\
    history h' obj = Some (default [] None) /\
    obj <> VRef 0%nat /\
    h' !! 0%nat = Some (tarray [1; 1] [0] [Entry 9 ∅]).
Proof.
  apply (constructor_starts_history_afresh 0%nat (tarray [1; 1] [0] [Entry 9 ∅]) [1; 1] [0]
           None [tarray [1; 1] [0] [Entry 9 ∅]]).
  - reflexivity.
  - reflexivity.
  - right. reflexivity.
Defined.

(** On a plain array the constructor does what [keep_memory] was taken
    to do with it. *)
Lemma constructor_on_plain_array (l : loc) (o : object) (shape data : list Z) (h : store) :
  h !! l = Some o ->
  okind o = ndarray ->
  opayload o = Pixels shape data ->
  TransformsArray___new__ (VRef l) None h = TransformsArray_new (VRef l) h.
Proof.
  intros Hl Hk Hp.
  unfold TransformsArray___new__, TransformsArray_new, np_asarray, view_TransformsArray,
    setattr_transforms, read, write, alloc. step_M. unfold ret.
  rewrite Hl, Hk, Hp. simpl. rewrite Hl, Hp. simpl.
  rewrite store_lookup_new. simpl. rewrite store_insert_new. reflexivity.
Qed.

Lemma keep_memory_on_none_history (self : transform) (l : loc) (o : object) (ps : params)
    (h : store) :
  h !! l = Some o ->
  otransforms o = SlotOther ->
  keep_memory self (VRef l) ps h = Raise AttributeError h.
Proof.
  intros Hl Hs.
  unfold keep_memory, try_AttributeError, getattr_transforms, transforms_append, read.
  step_M. unfold ret, raise. rewrite Hl, Hs, Hl, Hs. reflexivity.
Qed.

(** X27: a [TransformsArray] obtained as a view of an array that has no
    [transforms] is finalized with [transforms = None]; recording on it
    raises [AttributeError] where a fresh history might be expected, and
    the view keeps [None]. *)
Theorem view_of_plain_array_cannot_record (self : transform) (l : loc) (o : object)
    (shape data : list Z) (ps : params) (h : store) :
  h !! l = Some o ->
  otransforms o = NoSlot ->
  opayload o = Pixels shape data ->
  (v ← view_TransformsArray (VRef l); keep_memory self v ps) h
  = Raise AttributeError (h ++ [Object TransformsArray (Pixels shape data) SlotOther]).
Proof.
  intros Hl Hs Hp. unfold view_TransformsArray, read, alloc. step_M. unfold ret.
  rewrite Hl, Hp. simpl. rewrite Hs. simpl.
  eapply keep_memory_on_none_history; [apply store_lookup_new|reflexivity].
Qed.

Lemma view_of_plain_array_cannot_record_witness :
  (v ← view_TransformsArray (VRef 0%nat); keep_memory (NoOp 1 false 0.5) v (geometry 2 2))
    [array [2; 2] [1; 2; 3; 4]]
  = Raise AttributeError
      ([array [2; 2] [1; 2; 3; 4]]
       ++ [Object TransformsArray (Pixels [2; 2] [1; 2; 3; 4]) SlotOther]).
Proof.
  apply (view_of_plain_array_cannot_record (NoOp 1 false 0.5) 0%nat
           (array [2; 2] [1; 2; 3; 4]) [2; 2] [1; 2; 3; 4] (geometry 2 2)
           [array [2; 2] [1; 2; 3; 4]]); reflexivity.
Defined.

(** ** Introspection *)

Lemma getattrs_spec (s : introspected) (names : list string) (acc : gmap string attribute) :
  Forall (fun k => is_Some (instance_attributes s !! k)) names ->
  exists m,
    getattrs s names acc = Return m /\
    forall k, (k ∈ names -> m !! k = instance_attributes s !! k) /\
              (k ∉ names -> m !! k = acc !! k).
Proof.
  intros F. revert acc. induction F as [|k0 names [a Ha] _ IH]; intros acc.
  - exists acc. split; [reflexivity|]. intros k. split; [|reflexivity].
    intros Hin. inversion Hin.
  - simpl. unfold getattr. rewrite Ha. step_result.
    destruct (IH (<[k0 := a]> acc)) as (m & Hm & Hlook).
    exists m. split; [exact Hm|]. intros k. destruct (Hlook k) as [Hin Hout]. split.
    + intros Hk. destruct (decide (k ∈ names)) as [Y|N]; [exact (Hin Y)|].
      apply elem_of_cons in Hk as [->|Hk]; [|contradiction].
      rewrite (Hout N), lookup_insert_eq, Ha. reflexivity.
    + intros Hk. apply not_elem_of_cons in Hk as [Hne Hk].
      rewrite (Hout Hk), lookup_insert_ne by congruence. reflexivity.
Qed.

(** X28: a class that does not define [get_transform_init_args_names]
    cannot be serialized: asking for its arguments or for its dictionary
    raises [NotImplementedError] rather than giving a dictionary without
    arguments. *)
Theorem undeclared_arguments_are_not_serializable (s : introspected) :
  def_get_transform_init_args_names s = None ->
  get_transform_init_args s = Throw NotImplementedError /\
  _to_dict s = Throw NotImplementedError.
Proof.
  intros Hdef. unfold _to_dict, get_transform_init_args, get_transform_init_args_names.
  rewrite Hdef. split; reflexivity.
Qed.

Lemma undeclared_arguments_are_not_serializable_witness :
  get_transform_init_args (Introspected (NoOp 1 false 0.5) "albumentations.core" "NoOp" None ∅)
  = Throw NotImplementedError /\
  _to_dict (Introspected (NoOp 1 false 0.5) "albumentations.core" "NoOp" None ∅)
  = Throw NotImplementedError.
Proof.
  apply (undeclared_arguments_are_not_serializable
           (Introspected (NoOp 1 false 0.5) "albumentations.core" "NoOp" None ∅)).
  reflexivity.
Defined.

(** X29: when the class declares its argument names and each is an
    attribute of the instance, [_to_dict] returns a dictionary whose keys
    are ['__class_fullname__'], ['always_apply'], ['p'] and the declared
    names, and no other.  Each declared name holds the value of the
    attribute; ['p'] and ['always_apply'] hold the constructor arguments
    whether or not they are declared; and ['__class_fullname__'] holds
    the module and the name of the class joined by a dot unless it is a
    declared name itself. *)
Theorem to_dict_contents (s : introspected) (names : list string) :
  def_get_transform_init_args_names s = Some names ->
  Forall (fun k => is_Some (instance_attributes s !! k)) names ->
  exists state,
    _to_dict s = Return state /\
    state !! "p" = Some (ANumber (p (the_transform s))) /\
    state !! "always_apply" = Some (ABool (always_apply (the_transform s))) /\
    ("__class_fullname__" ∉ names ->
     state !! "__class_fullname__"
     = Some (AString (class_module s +:+ "." +:+ class_name s))) /\
    (forall k, k ∈ names -> state !! k = instance_attributes s !! k) /\
    (forall k, is_Some (state !! k) <->
               k ∈ "__class_fullname__" :: "always_apply" :: "p" :: names).
Proof.
  intros Hdef F.
  destruct (getattrs_spec s names ∅ F) as (m & Hm & Hlook).
  unfold _to_dict, get_transform_init_args, get_transform_init_args_names.
  rewrite Hdef. simpl. step_result. rewrite Hm.
  eexists. split; [reflexivity|].
  assert (Hin : forall k, k ∈ names ->
                  (m ∪ (get_base_init_args s
                          ∪ {["__class_fullname__" := AString (get_class_fullname s)]})) !! k
                  = instance_attributes s !! k).
  { intros k Hk. destruct (Hlook k) as [Hy _].
    destruct (Forall_forall (fun k => is_Some (instance_attributes s !! k)) names) as [Hf _].
    destruct (Hf F k Hk) as [a Ha].
    rewrite Ha. apply lookup_union_Some_l. rewrite (Hy Hk). exact Ha. }
  assert (Hout : forall k, k ∉ names ->
                  (m ∪ (get_base_init_args s
                          ∪ {["__class_fullname__" := AString (get_class_fullname s)]})) !! k
                  = (get_base_init_args s
                       ∪ {["__class_fullname__" := AString (get_class_fullname s)]}) !! k).
  { intros k Hk. destruct (Hlook k) as [_ Hn].
    apply lookup_union_r. rewrite (Hn Hk). apply lookup_empty. }
  assert (Hp : instance_attributes s !! "p" = Some (ANumber (p (the_transform s)))).
  { unfold instance_attributes. apply lookup_insert_eq. }
  assert (Ha : instance_attributes s !! "always_apply"
               = Some (ABool (always_apply (the_transform s)))).
  { unfold instance_attributes. rewrite lookup_insert_ne by discriminate.
    apply lookup_insert_eq. }
  repeat split.
  - destruct (decide ("p" ∈ names)) as [Y|N]; [rewrite (Hin _ Y); exact Hp|].
    rewrite (Hout _ N). reflexivity.
  - destruct (decide ("always_apply" ∈ names)) as [Y|N]; [rewrite (Hin _ Y); exact Ha|].
    rewrite (Hout _ N). reflexivity.
  - intros N. rewrite (Hout _ N). reflexivity.
  - exact Hin.
  - intros Hk. destruct (decide (k ∈ names)) as [Y|N]; [rewrite !elem_of_cons; auto|].
    rewrite (Hout _ N) in Hk. unfold get_base_init_args in Hk.
    destruct Hk as [a Hk].
    apply lookup_union_Some_raw in Hk as [Hk|[_ Hk]].
    + apply lookup_insert_Some in Hk as [[<- _]|[_ Hk]]; [rewrite !elem_of_cons; auto|].
      apply lookup_insert_Some in Hk as [[<- _]|[_ Hk]]; [rewrite !elem_of_cons; auto|].
      rewrite lookup_empty in Hk. discriminate.
    + apply lookup_singleton_Some in Hk as [<- _]. rewrite !elem_of_cons; auto.
  - intros Hk. destruct (decide (k ∈ names)) as [Y|N].
    + rewrite (Hin _ Y).
      destruct (Forall_forall (fun k => is_Some (instance_attributes s !! k)) names) as [Hf _].
      apply (Hf F), Y.
    + rewrite (Hout _ N).
      repeat (apply elem_of_cons in Hk as [->|Hk]; [eexists; reflexivity|]).
      contradiction.
Qed.

Lemma to_dict_contents_witness :
  exists state,
    _to_dict (Introspected (NoOp 1 false 0.5) "albumentations.core" "Blur"
                (Some ["blur_limit"; "p"]) {["blur_limit" := AValue (VInt 7)]})
    = Return state /\
    state !! "p" = Some (ANumber 0.5) /\
    state !! "always_apply" = Some (ABool false) /\
    ("__class_fullname__" ∉ ["blur_limit"; "p"] ->
     state !! "__class_fullname__" = Some (AString "albumentations.core.Blur")) /\
    (forall k, k ∈ ["blur_limit"; "p"] ->
       state !! k
       = instance_attributes
           (Introspected (NoOp 1 false 0.5) "albumentations.core" "Blur"
              (Some ["blur_limit"; "p"]) {["blur_limit" := AValue (VInt 7)]}) !! k) /\
    (forall k, is_Some (state !! k) <->
               k ∈ "__class_fullname__" :: "always_apply" :: "p" :: ["blur_limit"; "p"]).
Proof.
  apply (to_dict_contents
           (Introspected (NoOp 1 false 0.5) "albumentations.core" "Blur"
              (Some ["blur_limit"; "p"]) {["blur_limit" := AValue (VInt 7)]})
           ["blur_limit"; "p"]).
  - reflexivity.
  - repeat constructor; eexists; reflexivity.
Defined.

(** ** Plain arrays and lists *)

(** X30: for every transform, the ['image'] variant of a [DualTransform]
    given a plain array (or a plain list) runs [apply] on that very
    object, which still has no history, in a store that holds one object
    more: the wrapper with the entry of the call, to which [apply] is
    given no reference. *)
Theorem plain_artifact_reaches_apply_unwrapped (self : transform) (l : loc) (o : object)
    (ps : params) (h : store) :
  h !! l = Some o ->
  otransforms o = NoSlot ->
  accepts_attributes (okind o) = false ->
  _apply self (VRef l) ps h
  = apply self (VRef l) ps
      (h ++ [Object match okind o with ndarray => TransformsArray | _ => TransformsList end
               (opayload o) (Slot [Entry (ident self) ps])]) /\
  history
    (h ++ [Object match okind o with ndarray => TransformsArray | _ => TransformsList end
             (opayload o) (Slot [Entry (ident self) ps])]) (VRef l) = None.
Proof.
  intros Hl Hs Ha. split.
  - unfold _apply. step_M. rewrite (keep_memory_wraps _ _ _ _ _ Hl Hs Ha). reflexivity.
  - unfold history. rewrite lookup_app_l by (eapply lookup_lt_Some, Hl).
    rewrite Hl. destruct o as [k pl s]. simpl in Hs. rewrite Hs. reflexivity.
Qed.

Lemma plain_artifact_reaches_apply_unwrapped_witness :
  _apply (NoOp 1 false 0.5) (VRef 0%nat) (geometry 1 1) [array [1; 1] [5]]
  = apply (NoOp 1 false 0.5) (VRef 0%nat) (geometry 1 1)
      ([array [1; 1] [5]]
       ++ [Object match okind (array [1; 1] [5]) with
                  | ndarray => TransformsArray
                  | _ => TransformsList
                  end
             (opayload (array [1; 1] [5])) (Slot [Entry (ident (NoOp 1 false 0.5)) (geometry 1 1)])]) /\
  history
    ([array [1; 1] [5]]
     ++ [Object match okind (array [1; 1] [5]) with
                | ndarray => TransformsArray
                | _ => TransformsList
                end
           (opayload (array [1; 1] [5])) (Slot [Entry (ident (NoOp 1 false 0.5)) (geometry 1 1)])])
    (VRef 0%nat) = None.
Proof.
  apply (plain_artifact_reaches_apply_unwrapped (NoOp 1 false 0.5) 0%nat (array [1; 1] [5])
           (geometry 1 1) [array [1; 1] [5]]); reflexivity.
Defined.
